(** * HTTP request pipeline of Pincer (pincer/core/http.py)

    A shallow embedding of [HTTPClient.__send] and
    [HTTPClient.__handle_response], the two mutually recursive coroutines
    that drive one logical request through the rate limiter, the network
    and the retry policy, followed by the properties of the retry budget,
    the back-off delays, the status mapping and the header merge.

    Python integers are [Z]; dictionaries are [gmap]s; the coroutine
    effects (rate limiter calls, network calls, sleeps) are threaded
    through an explicit state that also keeps a chronological trace.
    The logging calls themselves are left out; what a log line evaluates
    is modelled where it can raise ([await res.text()] at the top of the
    handler). *)

From Stdlib Require Import ZArith QArith_base.
From stdpp Require Import gmap strings list fin_maps pretty.

Set Warnings "-register-all,-clear-no-such-hyp".

Local Open Scope Z_scope.

(** ** Python values *)

(** The values that flow through the pipeline: parsed JSON bodies, header
    and query parameter values, request payloads and sleep durations.
    [VPayload] stands for an opaque [aiohttp.payload.Payload]. *)
Inductive value : Type :=
| VNone
| VBool (b : bool)
| VInt (z : Z)
| VFloat (q : Q)
| VStr (s : string)
| VList (l : list value)
| VDict (d : gmap string value)
| VPayload (id : nat).

(** [x is None] *)
Definition is_none (v : value) : bool :=
  match v with VNone => true | _ => false end.

(** What [asyncio.sleep] accepts as a delay: it compares the delay with
    [0], which only real numbers support ([bool] is a subclass of [int]). *)
Definition is_number (v : value) : bool :=
  match v with VInt _ | VFloat _ | VBool _ => true | _ => false end.

(** ** Requests, responses, exceptions *)

(** The bound [aiohttp.ClientSession] method handed to [__send]. *)
Inductive http_method := DELETE | GET | HEAD | OPTIONS | PATCH | POST | PUT.

(** The keyword arguments of one call [method(url, data=, headers=, params=)]. *)
Record request := Request {
  req_method : http_method;
  req_url : string;
  req_data : option value;
  req_headers : gmap string value;
  req_params : option (gmap string value)
}.

(** The body of a response as the handler meets it: bytes that do not
    decode in the charset of the response, on which [res.text()] and
    [res.json()] raise [UnicodeDecodeError]; or a text, with what
    [res.json()] makes of it ([None] when it is not JSON). The text itself
    only goes to the debug log. A transfer that breaks off while the body
    is read is not told apart from the first case: it ends the handler at
    the same point. *)
Inductive body :=
| Undecodable
| Text (parsed : option value).

(** The parts of an [aiohttp.ClientResponse] that the handler reads. *)
Record response := Response {
  status : Z;
  reason : string;
  res_headers : gmap string string;
  res_body : body
}.

(** Whether [await res.text()] returns. *)
Definition readable (res : response) : bool :=
  match res_body res with
  | Text _ => true
  | Undecodable => false
  end.

(** What [await res.json()] returns when it does ([None] when it raises). *)
Definition res_json (res : response) : option value :=
  match res_body res with
  | Text parsed => parsed
  | Undecodable => None
  end.

(** [ClientResponse.ok]: aiohttp defines it as [400 > self.status]. *)
Definition ok (res : response) : bool := status res <? 400.

(** The subclasses of [pincer.exceptions.HTTPError] imported by the module. *)
Inductive http_error :=
| NotModifiedError | BadRequestError | UnauthorizedError | ForbiddenError
| NotFoundError | MethodNotAllowedError | RateLimitError | ServerError.

(** [isinstance(exception, RateLimitError)] *)
Definition is_RateLimitError (e : http_error) : bool :=
  match e with RateLimitError => true | _ => false end.

(** Exceptions that can leave the pipeline: an [HTTPError] initialised with
    a message, or an error raised by a library call (reading or parsing
    the body, [.get] on a non-dict, [sleep] on a non-number, the
    transport). *)
Inductive exn :=
| HTTPError (kind : http_error) (msg : string)
| UnicodeDecodeError
| JSONDecodeError
| AttributeError
| TypeError
| TransportError.

(** What the network gives back for one call. *)
Inductive net_result :=
| Responded (res : response)
| ConnectionFailed.

(** ** Collaborators *)

(** The parts of the program outside this module: the [RateLimiter] of
    [pincer/core/ratelimiter.py] (its two methods act on its own state),
    [json.dumps], the configured gateway version, the package version,
    and the remote server, which answers the [n]-th network call. *)
Class Env := {
  RLState : Type;
  wait_until_not_ratelimited : string → http_method → RLState → RLState;
  save_response_bucket :
    string → http_method → gmap string string → RLState → RLState;
  dumps : value → string;
  GatewayConfig_version : Z;
  pincer_version : string;
  transport : nat → request → net_result
}.

(** Effects of the coroutines, in the order they happen. *)
Inductive event :=
| EWait (endpoint : string) (method : http_method)
| ECall (req : request)
| ERecord (endpoint : string) (method : http_method)
          (headers : gmap string string)
| ESleep (seconds : value).

(** ** The effect monad *)

Inductive result (A : Type) :=
| Return (a : A)
| Raise (e : exn)
| OutOfFuel.
Arguments Return {A} a.
Arguments Raise {A} e.
Arguments OutOfFuel {A}.

Section Effects.
Context {E : Env}.

(** Mutable world of a run: the rate limiter, the number of network calls
    issued so far and the trace of effects. *)
Record state := State {
  rl : RLState;
  sent : nat;
  trace : list event
}.

Definition M (A : Type) : Type := state → result A * state.

Definition ret {A} (a : A) : M A := λ st, (Return a, st).

Definition raise {A} (e : exn) : M A := λ st, (Raise e, st).

Definition out_of_fuel {A} : M A := λ st, (OutOfFuel, st).

Definition bind {A B} (c : M A) (k : A → M B) : M B :=
  λ st,
    match c st with
    | (Return a, st') => k a st'
    | (Raise e, st') => (Raise e, st')
    | (OutOfFuel, st') => (OutOfFuel, st')
    end.

Definition emit (e : event) (st : state) : state :=
  {| rl := rl st; sent := sent st; trace := trace st ++ [e] |}.

(** ** Primitive effects *)

(** The world after the rate limiter has let the request through. *)
Definition waited (endpoint : string) (method : http_method) (st : state)
  : state :=
  emit (EWait endpoint method)
    {| rl := wait_until_not_ratelimited endpoint method (rl st);
       sent := sent st; trace := trace st |}.

(** The world after the rate limiter has stored the response's bucket. *)
Definition saved (endpoint : string) (method : http_method)
    (headers : gmap string string) (st : state) : state :=
  emit (ERecord endpoint method headers)
    {| rl := save_response_bucket endpoint method headers (rl st);
       sent := sent st; trace := trace st |}.

(** The world after one more network call. *)
Definition called (req : request) (st : state) : state :=
  emit (ECall req) {| rl := rl st; sent := S (sent st); trace := trace st |}.

(** [await self.__rate_limiter.wait_until_not_ratelimited(endpoint, method)] *)
Definition rate_limiter_wait (endpoint : string) (method : http_method)
  : M unit :=
  λ st, (Return (), waited endpoint method st).

(** [self.__rate_limiter.save_response_bucket(endpoint, method, res.headers)] *)
Definition rate_limiter_save (endpoint : string) (method : http_method)
    (headers : gmap string string) : M unit :=
  λ st, (Return (), saved endpoint method headers st).

(** [async with method(url, data=, headers=, params=) as res]: the server
    answers the call; a connection failure propagates as an exception. *)
Definition call_method (req : request) : M response :=
  λ st,
    match transport (sent st) req with
    | Responded res => (Return res, called req st)
    | ConnectionFailed => (Raise TransportError, called req st)
    end.

(** [await sleep(delay)] *)
Definition sleep (delay : value) : M unit :=
  if is_number delay then λ st, (Return (), emit (ESleep delay) st)
  else raise TypeError.

(** [await res.text()]; the text is only logged. *)
Definition text (res : response) : M unit :=
  if readable res then ret () else raise UnicodeDecodeError.

(** [await res.json()] *)
Definition json (res : response) : M value :=
  if readable res then
    match res_json res with
    | Some v => ret v
    | None => raise JSONDecodeError
    end
  else raise UnicodeDecodeError.

(** [body.get(key, default)]: only a dict has the method. *)
Definition get_default (body : value) (key : string) (default : value)
  : M value :=
  match body with
  | VDict d => ret (match d !! key with Some v => v | None => default end)
  | _ => raise AttributeError
  end.

(** ** Dictionary helpers *)

(** Modelled from the spec: [pincer.utils.conversion.remove_none] is not
    part of the sources at hand. The spec has the query parameters
    "stripped-of-absent": entries whose value is [None] are dropped, and
    an absent dictionary stays absent. *)
Definition remove_none (obj : option (gmap string value))
  : option (gmap string value) :=
  filter (λ kv, is_none kv.2 = false) <$> obj.

(** [d or {}]: [None] and the empty dict are both falsy. *)
Definition or_empty (d : option (gmap string value)) : gmap string value :=
  match d with
  | Some m => m
  | None => ∅
  end.

(** The dict display [{k: v, **extra}]: later entries replace earlier
    ones with the same key. *)
Definition dict_display (k : string) (v : value) (extra : gmap string value)
  : gmap string value :=
  extra ∪ {[ k := v ]}.

(** [if isinstance(data, dict): data = dumps(data)] *)
Definition serialize (data : option value) : option value :=
  match data with
  | Some (VDict d) => Some (VStr (dumps (VDict d)))
  | _ => data
  end.

(** [_ttl or default] on an optional integer: [None] and [0] are falsy. *)
Definition int_or (_ttl : option Z) (default : Z) : Z :=
  match _ttl with
  | Some t => if t =? 0 then default else t
  | None => default
  end.

End Effects.

Notation "x <- c ;; k" := (bind c (λ x, k))
  (at level 100, c at next level, right associativity).
Notation "c ;; k" := (bind c (λ _, k))
  (at level 100, right associativity).

(** ** The client *)

Module HTTPClient.
Section Client.
Context {E : Env}.

Record t := Client {
  url : string;
  max_ttl : Z;
  session_headers : gmap string string;
  http_exceptions : gmap Z http_error
}.

Definition __init__ (token : string) (version : option Z) (ttl : Z) : t :=
  let version := int_or version GatewayConfig_version in
  {| url := "https://discord.com/api/v" +:+ pretty version;
     max_ttl := ttl;
     session_headers :=
       {[ "Authorization" := "Bot " +:+ token;
          "User-Agent" :=
            "DiscordBot (https://github.com/Pincer-org/Pincer, "
              +:+ pincer_version +:+ ")" ]};
     http_exceptions :=
       {[ 304 := NotModifiedError;
          400 := BadRequestError;
          401 := UnauthorizedError;
          403 := ForbiddenError;
          404 := NotFoundError;
          405 := MethodNotAllowedError;
          429 := RateLimitError ]} |}.

(** The signature of [__send] once [self] is fixed: method, endpoint,
    content_type, data, headers, _ttl, params. *)
Definition send_t : Type :=
  http_method → string → string → option value →
  option (gmap string value) → option Z → option (gmap string value) →
  M value.

(** [__handle_response]; [send] is the recursive reference to [__send]. *)
Definition __handle_response (self : t) (send : send_t) (res : response)
    (method : http_method) (endpoint content_type : string)
    (data : option value) (_ttl : Z) : M value :=
  text res ;;
  rate_limiter_save endpoint method (res_headers res) ;;
  if ok res then
    if status res =? 204 then ret VNone
    else json res
  else
    match http_exceptions self !! status res with
    | Some exception =>
        if is_RateLimitError exception then
          body <- json res ;;
          timeout <- get_default body "retry_after" (VInt 40) ;;
          sleep timeout ;;
          send method endpoint content_type data None None None
        else
          raise (HTTPError exception (reason res))
    | None =>
        let retry_in := 1 + (max_ttl self - _ttl) * 2 in
        sleep (VInt retry_in) ;;
        send method endpoint content_type data None (Some (_ttl - 1)) None
    end.

(** [__send]. The two coroutines call each other without bound, so the
    recursion is cut by [fuel], the number of [__send] activations
    allowed. *)
Fixpoint __send (fuel : nat) (self : t) (method : http_method)
    (endpoint content_type : string) (data : option value)
    (headers : option (gmap string value)) (_ttl : option Z)
    (params : option (gmap string value)) {struct fuel} : M value :=
  match fuel with
  | O => out_of_fuel
  | S fuel' =>
      let ttl := int_or _ttl (max_ttl self) in
      if ttl =? 0 then
        raise (HTTPError ServerError
                 ("Maximum amount of retries for `" +:+ endpoint +:+ "`."))
      else
        let data := serialize data in
        rate_limiter_wait endpoint method ;;
        let url := url self +:+ "/" +:+ endpoint in
        res <- call_method
                 {| req_method := method;
                    req_url := url;
                    req_data := data;
                    req_headers :=
                      dict_display "Content-Type" (VStr content_type)
                        (or_empty (remove_none headers));
                    req_params := remove_none params |} ;;
        __handle_response self (__send fuel' self) res method endpoint
          content_type data ttl
  end.

(** Default of the [content_type] parameter. *)
Definition json_content_type : string := "application/json".

Definition delete (fuel : nat) (self : t) (route : string)
    (headers : option (gmap string value)) : M value :=
  __send fuel self DELETE route json_content_type None headers None None.

Definition get (fuel : nat) (self : t) (route : string)
    (params : option (gmap string value)) : M value :=
  __send fuel self GET route json_content_type None None None params.

Definition head (fuel : nat) (self : t) (route : string) : M value :=
  __send fuel self HEAD route json_content_type None None None None.

Definition options (fuel : nat) (self : t) (route : string) : M value :=
  __send fuel self OPTIONS route json_content_type None None None None.

Definition patch (fuel : nat) (self : t) (route : string)
    (data : option value) (content_type : string)
    (headers : option (gmap string value)) : M value :=
  __send fuel self PATCH route content_type data headers None None.

Definition post (fuel : nat) (self : t) (route : string)
    (data : option value) (content_type : string)
    (headers : option (gmap string value)) : M value :=
  __send fuel self POST route content_type data headers None None.

Definition put (fuel : nat) (self : t) (route : string)
    (data : option value) (content_type : string)
    (headers : option (gmap string value)) : M value :=
  __send fuel self PUT route content_type data headers None None.

End Client.
End HTTPClient.

(** ** Observations on runs *)

(** The network calls of a trace, oldest first. *)
Definition calls_of (tr : list event) : list request :=
  omap (λ e, match e with ECall req => Some req | _ => None end) tr.

(** The sleep durations of a trace, oldest first. *)
Definition sleeps_of (tr : list event) : list value :=
  omap (λ e, match e with ESleep v => Some v | _ => None end) tr.

(** A 5xx response. *)
Definition is_server_error (res : response) : Prop :=
  500 ≤ status res < 600.

(** A 429 response whose body is a JSON object with a numeric
    [retry_after], or without one. *)
Definition retry_after_of (d : gmap string value) : value :=
  match d !! "retry_after" with
  | Some v => v
  | None => VInt 40
  end.

Definition is_rate_limited (res : response) : Prop :=
  status res = 429 ∧
  ∃ d, res_json res = Some (VDict d) ∧ is_number (retry_after_of d) = true.

(** A successful response carrying [v]: a readable body, and no content
    or JSON that parses to [v]. *)
Definition is_success (res : response) (v : value) : Prop :=
  ok res = true ∧ readable res = true ∧
  if status res =? 204 then v = VNone else res_json res = Some v.

(** The server answers every call with a 5xx whose body is readable. *)
Definition always_server_error {E : Env} : Prop :=
  ∀ n req, ∃ res,
    transport n req = Responded res ∧ is_server_error res ∧
    readable res = true.

(** From call number [first] on, the server throttles [n] calls in a row
    with a 429. *)
Definition rate_limited_run {E : Env} (first n : nat) : Prop :=
  ∀ i req, (i < n)%nat →
    ∃ res, transport (first + i) req = Responded res ∧ is_rate_limited res.

(** The same with readable 5xx answers allowed among the 429s. *)
Definition retryable_run {E : Env} (first n : nat) : Prop :=
  ∀ i req, (i < n)%nat →
    ∃ res, transport (first + i) req = Responded res ∧
           (is_server_error res ∧ readable res = true
            ∨ is_rate_limited res).

(** Call number [n] succeeds with [v]. *)
Definition succeeds_at {E : Env} (n : nat) (v : value) : Prop :=
  ∀ req, ∃ res, transport n req = Responded res ∧ is_success res v.

(** The value a caller supplies for header [k], if any: [None] values
    are dropped before the merge. *)
Definition caller_header (headers : option (gmap string value)) (k : string)
  : option value :=
  match headers with
  | Some h =>
      match h !! k with
      | Some v => if is_none v then None else Some v
      | None => None
      end
  | None => None
  end.

(** The request [__send] issues when it is called with these arguments. *)
Definition request_of {E : Env} (self : HTTPClient.t) (method : http_method)
    (endpoint content_type : string) (data : option value)
    (headers params : option (gmap string value)) : request :=
  {| req_method := method;
     req_url := HTTPClient.url self +:+ "/" +:+ endpoint;
     req_data := serialize data;
     req_headers :=
       dict_display "Content-Type" (VStr content_type)
         (or_empty (remove_none headers));
     req_params := remove_none params |}.

(** A stand-in for the recursive call that only reports the retry budget
    the re-issued [__send] would start with. *)
Definition report_ttl {E : Env} (self : HTTPClient.t) : HTTPClient.send_t :=
  λ _ _ _ _ _ _ttl _, ret (VInt (int_or _ttl (HTTPClient.max_ttl self))).

(** ** A concrete world for examples *)

(** A server that plays [script] and then answers [fallback] for ever. *)
Definition scripted (script : list net_result) (fallback : net_result)
  : nat → request → net_result :=
  λ n _, nth n script fallback.

(** A server that gives the same answer to every call. *)
Definition always (answer : net_result) : nat → request → net_result :=
  λ _ _, answer.

(** The rate limiter state counts the buckets saved. *)
Definition demo_env (server : nat → request → net_result) : Env :=
  {| RLState := nat;
     wait_until_not_ratelimited := λ _ _ s, s;
     save_response_bucket := λ _ _ _ s, S s;
     dumps := λ _, "{}";
     GatewayConfig_version := 9;
     pincer_version := "0.14.0";
     transport := server |}.

Definition respond (s : Z) (body : option value) : net_result :=
  Responded
    {| status := s; reason := "reason"; res_headers := ∅;
       res_body := Text body |}.

Definition fresh {E : Env} (r : RLState) : state :=
  {| rl := r; sent := 0; trace := [] |}.

(** A 429 with the given JSON object as body. *)
Definition throttled (body : gmap string value) : response :=
  {| status := 429; reason := "Too Many Requests"; res_headers := ∅;
     res_body := Text (Some (VDict body)) |}.

(** ** Shapes of whole runs *)

(** The effects of one logical request that starts when [n] network calls
    have been issued: rounds of wait, call, bucket save and sleep. The last
    round may stop after the call (the connection failed, or the body of
    the response could not be read) or after the bucket save (the handler
    returned or raised); an empty trace is a run that issued nothing. A
    save follows exactly the responses with a readable body and carries
    the headers of that response. *)
Inductive rounds {E : Env} (endpoint : string) (method : http_method)
  : nat → list event → Prop :=
| rounds_none n : rounds endpoint method n []
| rounds_failed n req :
    transport n req = ConnectionFailed →
    rounds endpoint method n [EWait endpoint method; ECall req]
| rounds_unread n req res :
    transport n req = Responded res →
    readable res = false →
    rounds endpoint method n [EWait endpoint method; ECall req]
| rounds_last n req res :
    transport n req = Responded res →
    readable res = true →
    rounds endpoint method n
      [EWait endpoint method; ECall req;
       ERecord endpoint method (res_headers res)]
| rounds_again n req res delay tl :
    transport n req = Responded res →
    readable res = true →
    is_number delay = true →
    rounds endpoint method (S n) tl →
    rounds endpoint method n
      (EWait endpoint method :: ECall req
         :: ERecord endpoint method (res_headers res) :: ESleep delay :: tl).

(** The rate limiter after the waits and bucket saves of a trace have
    been applied to it in order. *)
Definition replay {E : Env} (tl : list event) (r : RLState) : RLState :=
  foldl
    (λ r e,
       match e with
       | EWait endpoint method =>
           wait_until_not_ratelimited endpoint method r
       | ERecord endpoint method headers =>
           save_response_bucket endpoint method headers r
       | _ => r
       end)
    r tl.

(** The sleeps of [n] server errors in a row under a ceiling [C >= 1]. *)
Definition periodic_backoff (C : Z) (n : nat) : list value :=
  (λ k : nat, VInt (1 + 2 * (Z.of_nat k `mod` C))) <$> seq 0 n.

(** The sleeps of [n] server errors in a row under a negative ceiling. *)
Definition linear_backoff (n : nat) : list value :=
  (λ k : nat, VInt (1 + 2 * Z.of_nat k)) <$> seq 0 n.

(** What an [ok] response makes the handler return or raise. *)
Definition ok_outcome (res : response) : result value :=
  match res_body res with
  | Undecodable => Raise UnicodeDecodeError
  | Text parsed =>
      if status res =? 204 then Return VNone
      else match parsed with
           | Some v => Return v
           | None => Raise JSONDecodeError
           end
  end.

(** ** Channels (pincer/objects/guild/channel.py) *)

(** The members of the [IntEnum] [ChannelType]. *)
Inductive ChannelType :=
| GUILD_TEXT | DM | GUILD_VOICE | GROUP_DM | GUILD_CATEGORY | GUILD_NEWS
| GUILD_STORE | GUILD_NEWS_THREAD | GUILD_PUBLIC_THREAD
| GUILD_PRIVATE_THREAD | GUILD_STAGE_VOICE.

#[global] Instance ChannelType_eq_dec : EqDecision ChannelType.
Proof. solve_decision. Defined.

(** The body of the class: members with their values, in the order they
    are defined. The three thread types only exist from gateway version 9
    on. *)
Definition ChannelType_members {E : Env} : list (ChannelType * Z) :=
  [(GUILD_TEXT, 0); (DM, 1); (GUILD_VOICE, 2); (GROUP_DM, 3);
   (GUILD_CATEGORY, 4); (GUILD_NEWS, 5); (GUILD_STORE, 6)]
  ++ (if 9 <=? GatewayConfig_version
      then [(GUILD_NEWS_THREAD, 10); (GUILD_PUBLIC_THREAD, 11);
            (GUILD_PRIVATE_THREAD, 12)]
      else [])
  ++ [(GUILD_STAGE_VOICE, 13)].

(** The integer a Python value compares equal to, if any: an enum is
    looked up by value, and [True == 1] and [2.0 == 2] hold with equal
    hashes. *)
Definition int_value (v : value) : option Z :=
  match v with
  | VInt z => Some z
  | VBool b => Some (if b then 1 else 0)
  | VFloat q =>
      if Qnum q `mod` Z.pos (Qden q) =? 0
      then Some (Qnum q `div` Z.pos (Qden q))
      else None
  | _ => None
  end.

(** [ChannelType(x)]: the member whose value equals [x]; [None] stands
    for the [ValueError] of a value that belongs to no member. *)
Definition ChannelType_call {E : Env} (x : value) : option ChannelType :=
  match int_value x with
  | Some z => fst <$> find (λ m, m.2 =? z) ChannelType_members
  | None => None
  end.

(** The truth value of a Python value. *)
Definition truthy (v : value) : bool :=
  match v with
  | VNone => false
  | VBool b => b
  | VInt z => negb (z =? 0)
  | VFloat q => negb (Qnum q =? 0)
  | VStr s => negb (String.eqb s "")
  | VList l => match l with [] => false | _ => true end
  | VDict d => match map_to_list d with [] => false | _ => true end
  | VPayload _ => true
  end.

(** The classes of the module that [from_dict] is called on. *)
Inductive channel_class :=
| Channel | TextChannel | VoiceChannel | CategoryChannel | NewsChannel.

Definition _channel_type_map : list (ChannelType * channel_class) :=
  [(GUILD_TEXT, TextChannel); (GUILD_VOICE, VoiceChannel);
   (GUILD_CATEGORY, CategoryChannel); (GUILD_NEWS, NewsChannel)].

(** [_channel_type_map.get(key, default)] *)
Definition channel_type_map_get (key : ChannelType)
    (default : channel_class) : channel_class :=
  match find (λ entry, bool_decide (entry.1 = key)) _channel_type_map with
  | Some entry => entry.2
  | None => default
  end.

(** The parts of the program that channel.py only refers to: the
    [Snowflake] of [pincer/utils/snowflake.py] with the text it formats
    to in an f-string. *)
Class Objects := {
  Snowflake : Type;
  Snowflake_format : Snowflake → string
}.

(** The client, with the one attribute the channel methods read. *)
Record Client := { http : HTTPClient.t }.

(** The attributes of a channel object that [edit] reads. *)
Module ChannelObject.
Record t {O : Objects} := {
  id : Snowflake;
  _client : Client;
  _http : HTTPClient.t
}.
End ChannelObject.

(** The values of the dictionary handed to [from_dict]: JSON values of the
    response, the client, its HTTP client and the channel type. *)
Inductive field :=
| FValue (v : value)
| FClient (c : Client)
| FHttp (h : HTTPClient.t)
| FType (t : ChannelType).

(** The exceptions of the pipeline and the two more that the channel
    methods raise themselves. *)
Inductive py_exn :=
| Exn (e : exn)
| KeyError (key : string)
| ValueError (v : value).

(** How a channel method ends: with the value of
    [channel_cls.from_dict(data)] ([APIObject.from_dict] is outside these
    sources, so the call is kept as it is made), with an exception, or
    with the pipeline still retrying. *)
Inductive channel_outcome :=
| FromDict (channel_cls : channel_class) (data : gmap string field)
| Raised (e : py_exn)
| Unfinished.

(** The common tail of [from_id] and [edit]: [data.update] with the
    client, the HTTP client and the popped and converted type, then the
    choice of the class. The attribute [update] is looked up before the
    argument is built, so what is not a dict fails first. *)
Definition channel_from_data {E : Env} (client : Client)
    (http_client : HTTPClient.t) (data : value) : channel_outcome :=
  match data with
  | VDict d =>
      match d !! "type" with
      | None => Raised (KeyError "type")
      | Some x =>
          match ChannelType_call x with
          | None => Raised (ValueError x)
          | Some type =>
              let data :=
                <["type" := FType type]>
                  (<["_http" := FHttp http_client]>
                     (<["_client" := FClient client]>
                        (FValue <$> delete "type" d))) in
              FromDict (channel_type_map_get type Channel) data
          end
      end
  | _ => Raised (Exn AttributeError)
  end.

(** [Channel.from_id] *)
Definition Channel_from_id {E : Env} (fuel : nat) (client : Client)
    (channel_id : Z) (st : state) : channel_outcome * state :=
  match
    HTTPClient.get fuel (http client) ("channels/" +:+ pretty channel_id)
      None st
  with
  | (Return data, st') =>
      (channel_from_data client (http client)
         (if truthy data then data else VDict ∅), st')
  | (Raise e, st') => (Raised (Exn e), st')
  | (OutOfFuel, st') => (Unfinished, st')
  end.

(** [Channel.edit], which the [edit] of [TextChannel], [VoiceChannel] and
    [NewsChannel] call through [super()]. *)
Definition Channel_edit {E : Env} {O : Objects} (fuel : nat)
    (self : ChannelObject.t) (kwargs : gmap string value) (st : state)
  : channel_outcome * state :=
  match
    HTTPClient.patch fuel (ChannelObject._http self)
      ("channels/" +:+ Snowflake_format (ChannelObject.id self))
      (Some (VDict kwargs)) HTTPClient.json_content_type None st
  with
  | (Return data, st') =>
      (channel_from_data (ChannelObject._client self)
         (ChannelObject._http self) data, st')
  | (Raise e, st') => (Raised (Exn e), st')
  | (OutOfFuel, st') => (Unfinished, st')
  end.

(** The request [Channel.from_id] starts with. *)
Definition from_id_request {E : Env} (client : Client) (channel_id : Z)
  : request :=
  request_of (http client) GET ("channels/" +:+ pretty channel_id)
    HTTPClient.json_content_type None None None.

(** The request [Channel.edit] starts with. *)
Definition edit_request {E : Env} {O : Objects} (self : ChannelObject.t)
    (kwargs : gmap string value) : request :=
  request_of (ChannelObject._http self) PATCH
    ("channels/" +:+ Snowflake_format (ChannelObject.id self))
    HTTPClient.json_content_type (Some (VDict kwargs)) None None.

(** The world after a request was answered at once by [res]. *)
Definition answered {E : Env} (req : request) (endpoint : string)
    (res : response) (st : state) : state :=
  saved endpoint (req_method req) (res_headers res)
    (called req (waited endpoint (req_method req) st)).

(** A world like [demo_env] with a gateway older than version 9. *)
Definition legacy_env (server : nat → request → net_result) : Env :=
  {| RLState := nat;
     wait_until_not_ratelimited := λ _ _ s, s;
     save_response_bucket := λ _ _ _ s, S s;
     dumps := λ _, "{}";
     GatewayConfig_version := 8;
     pincer_version := "0.14.0";
     transport := server |}.

(** Snowflakes as integers printed in decimal. *)
Definition demo_objects : Objects :=
  {| Snowflake := Z; Snowflake_format := pretty |}.

(** [out] is the call of [from_dict] that a response object [d] of channel
    type [type] should lead to: on the class that goes with the type
    (text, voice, category and news channels have their own, every other
    type the plain [Channel]), with the type converted, the client and
    its HTTP client attached, and every other key as the server sent
    it. *)
Definition built_from (client : Client) (http_client : HTTPClient.t)
    (d : gmap string value) (type : ChannelType) (out : channel_outcome)
  : Prop :=
  ∃ data,
    out =
      FromDict
        match type with
        | GUILD_TEXT => TextChannel
        | GUILD_VOICE => VoiceChannel
        | GUILD_CATEGORY => CategoryChannel
        | GUILD_NEWS => NewsChannel
        | _ => Channel
        end data ∧
    data !! "type" = Some (FType type) ∧
    data !! "_client" = Some (FClient client) ∧
    data !! "_http" = Some (FHttp http_client) ∧
    ∀ k : string, k ∉ ["type"; "_client"; "_http"] →
      data !! k = FValue <$> d !! k.

(** * Properties *)

Section Properties.
Context {E : Env}.
Import HTTPClient.

Implicit Types (self : HTTPClient.t) (send : send_t) (res : response)
  (method : http_method) (endpoint content_type : string)
  (data : option value) (headers params : option (gmap string value))
  (st : state) (fuel : nat).

(** ** The status table *)

Lemma http_exceptions_lookup token version ttl (s : Z) :
  http_exceptions (__init__ token version ttl) !! s =
    if decide (s = 304) then Some NotModifiedError
    else if decide (s = 400) then Some BadRequestError
    else if decide (s = 401) then Some UnauthorizedError
    else if decide (s = 403) then Some ForbiddenError
    else if decide (s = 404) then Some NotFoundError
    else if decide (s = 405) then Some MethodNotAllowedError
    else if decide (s = 429) then Some RateLimitError
    else None.
Proof.
  cbn [__init__ http_exceptions].
  repeat (case_decide; [subst s; by simplify_map_eq |]).
  by simplify_map_eq.
Qed.

Lemma http_exceptions_unmapped token version ttl (s : Z) :
  s ∉ [304; 400; 401; 403; 404; 405; 429] →
  http_exceptions (__init__ token version ttl) !! s = None.
Proof.
  intros Hs. rewrite http_exceptions_lookup.
  repeat (case_decide; [subst s; exfalso; apply Hs; set_solver |]).
  done.
Qed.

(** ** One step of each coroutine *)

Lemma res_json_readable res v : res_json res = Some v → readable res = true.
Proof. unfold res_json, readable. by destruct (res_body res). Qed.

(** A response whose body cannot be read makes the handler raise before
    anything else happens. *)
Lemma handle_unreadable self send res method endpoint content_type data
    (_ttl : Z) st :
  readable res = false →
  __handle_response self send res method endpoint content_type data _ttl st =
    (Raise UnicodeDecodeError, st).
Proof.
  intros Hr. unfold __handle_response, bind, text. by rewrite Hr.
Qed.

(** A readable response that is neither [ok] nor in the table takes the
    back-off path. *)
Lemma handle_unmapped self send res method endpoint content_type data
    (_ttl : Z) st :
  readable res = true →
  ok res = false →
  http_exceptions self !! status res = None →
  __handle_response self send res method endpoint content_type data _ttl st =
    send method endpoint content_type data None (Some (_ttl - 1)) None
      (emit (ESleep (VInt (1 + (max_ttl self - _ttl) * 2)))
         (saved endpoint method (res_headers res) st)).
Proof.
  intros Hr Hok Hnone.
  unfold __handle_response, bind, text, rate_limiter_save.
  rewrite Hr, Hok, Hnone. reflexivity.
Qed.

(** A 429 whose body is a JSON object sleeps for [retry_after] (40 by
    default) and re-sends without a [_ttl]. *)
Lemma handle_429 token version ttl send res method endpoint content_type
    data (_ttl : Z) st d :
  status res = 429 →
  res_json res = Some (VDict d) →
  is_number (retry_after_of d) = true →
  __handle_response (__init__ token version ttl) send res method endpoint
    content_type data _ttl st =
    send method endpoint content_type data None None None
      (emit (ESleep (retry_after_of d))
         (saved endpoint method (res_headers res) st)).
Proof.
  intros Hs Hj Hn.
  unfold __handle_response, bind, text, rate_limiter_save.
  rewrite (res_json_readable res (VDict d)) by done.
  unfold ok. rewrite http_exceptions_lookup, Hs. cbn.
  unfold json. rewrite (res_json_readable res (VDict d)), Hj by done.
  cbn. unfold sleep.
  fold (retry_after_of d). rewrite Hn. reflexivity.
Qed.

(** A readable response whose status has a table entry other than 429
    raises that entry, initialised with the reason; [send] is not
    called. *)
Lemma handle_mapped self send res method endpoint content_type data
    (_ttl : Z) st exception :
  readable res = true →
  ok res = false →
  http_exceptions self !! status res = Some exception →
  is_RateLimitError exception = false →
  __handle_response self send res method endpoint content_type data _ttl st =
    (Raise (HTTPError exception (reason res)),
     saved endpoint method (res_headers res) st).
Proof.
  intros Hr Hok Hsome Hne.
  unfold __handle_response, bind, text, rate_limiter_save.
  rewrite Hr, Hok, Hsome, Hne. reflexivity.
Qed.

(** A readable [ok] response returns: nothing for 204, the parsed body
    otherwise. *)
Lemma handle_ok self send res method endpoint content_type data (_ttl : Z)
    st :
  readable res = true →
  ok res = true →
  __handle_response self send res method endpoint content_type data _ttl st =
    ((if status res =? 204 then Return VNone
      else match res_json res with
           | Some v => Return v
           | None => Raise JSONDecodeError
           end),
     saved endpoint method (res_headers res) st).
Proof.
  intros Hr Hok. unfold __handle_response, bind, text, rate_limiter_save.
  rewrite Hr, Hok. destruct (status res =? 204); [reflexivity |].
  unfold json. rewrite Hr. destruct (res_json res); reflexivity.
Qed.

Lemma handle_success self send res method endpoint content_type data
    (_ttl : Z) st v :
  is_success res v →
  __handle_response self send res method endpoint content_type data _ttl st =
    (Return v, saved endpoint method (res_headers res) st).
Proof.
  intros (Hok & Hr & Hv). rewrite handle_ok by done.
  destruct (status res =? 204); [by subst v | by rewrite Hv].
Qed.

(** One activation of [__send] with budget left. *)
Lemma send_step fuel self method endpoint content_type data headers
    (_ttl : option Z) params st :
  int_or _ttl (max_ttl self) ≠ 0 →
  __send (S fuel) self method endpoint content_type data headers _ttl
    params st =
    let req := request_of self method endpoint content_type data headers
                 params in
    let st' := called req (waited endpoint method st) in
    match transport (sent st) req with
    | Responded res =>
        __handle_response self (__send fuel self) res method endpoint
          content_type (serialize data) (int_or _ttl (max_ttl self)) st'
    | ConnectionFailed => (Raise TransportError, st')
    end.
Proof.
  intros Hne. cbn [__send].
  destruct (int_or _ttl (max_ttl self) =? 0) eqn:Hz; [lia |].
  unfold bind, rate_limiter_wait, call_method, request_of. cbn.
  destruct (transport _ _); reflexivity.
Qed.

(** An activation without budget raises before any effect. *)
Lemma send_exhausted fuel self method endpoint content_type data headers
    (_ttl : option Z) params st :
  int_or _ttl (max_ttl self) = 0 →
  __send (S fuel) self method endpoint content_type data headers _ttl
    params st =
    (Raise (HTTPError ServerError
              ("Maximum amount of retries for `" +:+ endpoint +:+ "`.")),
     st).
Proof.
  intros Hz. cbn [__send]. rewrite Hz. reflexivity.
Qed.

(** ** Shapes of a run *)

Lemma server_error_not_ok res : is_server_error res → ok res = false.
Proof. unfold is_server_error, ok. intros ?. apply Z.ltb_ge. lia. Qed.

Lemma server_error_unmapped token version ttl res :
  is_server_error res →
  http_exceptions (__init__ token version ttl) !! status res = None.
Proof.
  unfold is_server_error. intros Hs. apply http_exceptions_unmapped.
  set_unfold. lia.
Qed.

(** [_ttl or self.max_ttl] cannot be [0] unless the ceiling is. *)
Lemma int_or_nonzero (_ttl : option Z) (ceiling : Z) :
  ceiling ≠ 0 → int_or _ttl ceiling ≠ 0.
Proof.
  intros Hc. destruct _ttl as [t|]; cbn; [|done].
  destruct (t =? 0) eqn:Ht; lia.
Qed.

(** Closes the first alternative of [handle_cases]: the handler stopped
    with a result that does not depend on the recursive call. *)
Local Ltac terminal :=
  left; eexists; split; revgoals; [intros ?; reflexivity | discriminate].

(** Whatever the readable response, the handler first saves the bucket
    and then either finishes there or sleeps once and re-sends with the
    same method, endpoint, content type and data, and with neither headers
    nor params. *)
Lemma handle_cases self res method endpoint content_type data (_ttl : Z) st :
  readable res = true →
  (∃ r, r ≠ OutOfFuel ∧ ∀ send,
      __handle_response self send res method endpoint content_type data
        _ttl st = (r, saved endpoint method (res_headers res) st))
  ∨ (∃ t v, ∀ send,
      __handle_response self send res method endpoint content_type data
        _ttl st =
        send method endpoint content_type data None t None
          (emit (ESleep v) (saved endpoint method (res_headers res) st))).
Proof.
  intros Hread. unfold __handle_response, bind, text, rate_limiter_save.
  rewrite Hread. cbn.
  destruct (ok res).
  - destruct (status res =? 204); [terminal |].
    unfold json. rewrite Hread. destruct (res_json res); terminal.
  - destruct (http_exceptions self !! status res) as [exception|].
    + destruct (is_RateLimitError exception); [| terminal].
      unfold json. rewrite Hread.
      destruct (res_json res) as [body|]; [| terminal].
      cbn. destruct body; cbn; try terminal.
      unfold sleep. destruct (is_number _); [| terminal].
      right. by do 2 eexists.
    + right. by do 2 eexists.
Qed.

Lemma calls_of_app (a b : list event) :
  calls_of (a ++ b) = calls_of a ++ calls_of b.
Proof. apply omap_app. Qed.

Lemma sleeps_of_app (a b : list event) :
  sleeps_of (a ++ b) = sleeps_of a ++ sleeps_of b.
Proof. apply omap_app. Qed.

Lemma serialize_idemp data : serialize (serialize data) = serialize data.
Proof. by destruct data as [[]|]. Qed.

Lemma request_of_retry self method endpoint content_type data :
  request_of self method endpoint content_type data None None =
    {| req_method := method;
       req_url := url self +:+ "/" +:+ endpoint;
       req_data := serialize data;
       req_headers := {[ "Content-Type" := VStr content_type ]};
       req_params := None |}.
Proof.
  unfold request_of, dict_display. cbn. by rewrite (left_id_L ∅ (∪)).
Qed.

(** A run only appends to the trace, and every call of an activation that
    was started without headers and params repeats one request. *)
Lemma resend_calls fuel self method endpoint content_type data
    (_ttl : option Z) st :
  ∃ tl,
    trace (__send fuel self method endpoint content_type (serialize data)
             None _ttl None st).2 = trace st ++ tl ∧
    Forall (λ req, req = request_of self method endpoint content_type data
                           None None) (calls_of tl).
Proof.
  revert _ttl st. induction fuel as [|fuel IH]; intros _ttl st.
  { exists []. split; [by rewrite app_nil_r | constructor]. }
  destruct (decide (int_or _ttl (max_ttl self) = 0)) as [Hz|Hz].
  { rewrite send_exhausted by done. exists [].
    split; [by rewrite app_nil_r | constructor]. }
  rewrite send_step by done. cbn zeta.
  assert (Hreq : request_of self method endpoint content_type
                   (serialize data) None None =
                 request_of self method endpoint content_type data None None).
  { unfold request_of. by rewrite serialize_idemp. }
  rewrite Hreq. rewrite serialize_idemp.
  set (req := request_of self method endpoint content_type data None None).
  destruct (transport (sent st) req) as [res|]; cycle 1.
  { exists [EWait endpoint method; ECall req]. cbn.
    split; [by rewrite <- !app_assoc | by repeat constructor]. }
  destruct (readable res) eqn:Hread; cycle 1.
  { rewrite handle_unreadable by done.
    exists [EWait endpoint method; ECall req]. cbn.
    split; [by rewrite <- !app_assoc | by repeat constructor]. }
  - destruct (handle_cases self res method endpoint content_type
                (serialize data) (int_or _ttl (max_ttl self))
                (called req (waited endpoint method st)) Hread)
      as [(r & _ & Hr)|(t & v & Hr)]; rewrite Hr.
    + eexists [EWait _ _; ECall req; ERecord _ _ _]. cbn.
      split; [by rewrite <- !app_assoc | by repeat constructor].
    + destruct (IH t (emit (ESleep v)
                        (saved endpoint method (res_headers res)
                           (called req (waited endpoint method st)))))
        as (tl & Htl & Hall).
      exists ([EWait endpoint method; ECall req;
               ERecord endpoint method (res_headers res); ESleep v] ++ tl).
      split.
      * rewrite Htl. cbn. by rewrite <- !app_assoc.
      * rewrite calls_of_app. apply Forall_app. split; [| done].
        by repeat constructor.
Qed.

Lemma send_trace_extends fuel self method endpoint content_type data headers
    (_ttl : option Z) params st :
  ∃ tl,
    trace (__send fuel self method endpoint content_type data headers _ttl
             params st).2 = trace st ++ tl.
Proof.
  destruct fuel as [|fuel]; [exists []; by rewrite app_nil_r |].
  destruct (decide (int_or _ttl (max_ttl self) = 0)) as [Hz|Hz].
  { rewrite send_exhausted by done. exists []. by rewrite app_nil_r. }
  rewrite send_step by done. cbn zeta.
  set (req := request_of _ _ _ _ _ _ _).
  destruct (transport (sent st) req) as [res|]; cycle 1.
  { eexists [_; _]. cbn. by rewrite <- !app_assoc. }
  destruct (readable res) eqn:Hread; cycle 1.
  { rewrite handle_unreadable by done.
    eexists [_; _]. cbn. by rewrite <- !app_assoc. }
  - destruct (handle_cases self res method endpoint content_type
                (serialize data) (int_or _ttl (max_ttl self))
                (called req (waited endpoint method st)) Hread)
      as [(r & _ & Hr)|(t & v & Hr)]; rewrite Hr.
    + eexists [_; _; _]. cbn. by rewrite <- !app_assoc.
    + destruct (resend_calls fuel self method endpoint content_type data t
                  (emit (ESleep v)
                     (saved endpoint method (res_headers res)
                        (called req (waited endpoint method st)))))
        as (tl & Htl & _).
      rewrite Htl. eexists ([_; _; _; _] ++ tl). cbn.
      by rewrite <- !app_assoc.
Qed.

(** ** Server errors *)

(** One activation that meets a readable 5xx: it waits, calls, saves the
    bucket, sleeps for the back-off delay and re-sends with one unit
    less. *)
Lemma send_server_error_step token version (C : Z) fuel method endpoint
    content_type data headers (_ttl : option Z) params st :
  C ≠ 0 →
  always_server_error →
  ∃ st' req hs,
    __send (S fuel) (__init__ token version C) method endpoint content_type
      data headers _ttl params st =
      __send fuel (__init__ token version C) method endpoint content_type
        (serialize data) None (Some (int_or _ttl C - 1)) None st' ∧
    trace st' =
      trace st ++ [EWait endpoint method; ECall req;
                   ERecord endpoint method hs;
                   ESleep (VInt (1 + (C - int_or _ttl C) * 2))] ∧
    sent st' = S (sent st).
Proof.
  intros HC Hall. rewrite send_step by (by apply int_or_nonzero).
  cbn zeta. set (req := request_of _ _ _ _ _ _ _).
  destruct (Hall (sent st) req) as (res & -> & Hres & Hread).
  rewrite handle_unmapped
    by eauto using server_error_not_ok, server_error_unmapped.
  eexists _, req, (res_headers res). split; [reflexivity |].
  cbn. by rewrite <- !app_assoc.
Qed.

(** Unrolls the activation in the goal with [send_server_error_step]. *)
Local Ltac server_error_step HC Hall :=
  match goal with
  | |- context [__send (S ?f) (__init__ ?tok ?ver ?C) ?m ?ep ?ct ?d ?h ?t
                  ?p ?s] =>
      let T := fresh "T" in
      destruct (send_server_error_step tok ver C f m ep ct d h t p s HC Hall)
        as (? & ? & ? & -> & T & _)
  end.

Lemma server_errors_loop token version (C : Z) fuel method endpoint
    content_type data headers (_ttl : option Z) params st :
  C ≠ 0 →
  always_server_error →
  (__send fuel (__init__ token version C) method endpoint content_type data
     headers _ttl params st).1 = OutOfFuel ∧
  sent (__send fuel (__init__ token version C) method endpoint content_type
          data headers _ttl params st).2 = (sent st + fuel)%nat.
Proof.
  intros HC Hall. revert data headers _ttl params st.
  induction fuel as [|fuel IH]; intros data headers _ttl params st.
  { cbn. split; [done | lia]. }
  destruct (send_server_error_step token version C fuel method endpoint
              content_type data headers _ttl params st HC Hall)
    as (st' & req & hs & -> & _ & Hsent).
  destruct (IH (serialize data) None (Some (int_or _ttl C - 1)) None st')
    as [Hout Hn].
  split; [done |]. rewrite Hn, Hsent. lia.
Qed.

(** Closes a case of [handle_never_server_error] in which the handler
    stops with something that is not an [HTTPError]. *)
Local Ltac stops :=
  left; eexists _, _; split; revgoals;
  [intros ?; reflexivity | intros ?; discriminate].

(** What ends the handler without a re-send is never an [HTTPError] of
    kind [ServerError]: the table has no such entry. *)
Lemma handle_never_server_error token version (C : Z) res method endpoint
    content_type data (_ttl : Z) st :
  (∃ r st', (∀ msg, r ≠ Raise (HTTPError ServerError msg)) ∧ ∀ send,
      __handle_response (__init__ token version C) send res method endpoint
        content_type data _ttl st = (r, st'))
  ∨ (∃ t st', ∀ send,
      __handle_response (__init__ token version C) send res method endpoint
        content_type data _ttl st =
        send method endpoint content_type data None t None st').
Proof.
  destruct (readable res) eqn:Hread; cycle 1.
  { left. exists (Raise UnicodeDecodeError), st.
    split; [done |]. intros send. by apply handle_unreadable. }
  unfold __handle_response, bind, text, rate_limiter_save.
  rewrite Hread.
  remember (http_exceptions (__init__ token version C) !! status res)
    as found eqn:Hlookup.
  cbn.
  destruct (ok res).
  { destruct (status res =? 204); [stops |].
    unfold json. rewrite Hread. destruct (res_json res); stops. }
  destruct found as [exception|];
    [| right; eexists _, _; intros ?; reflexivity].
  rewrite http_exceptions_lookup in Hlookup.
  assert (Hkind : exception ≠ ServerError).
  { repeat case_decide; by simplify_eq. }
  destruct (is_RateLimitError exception).
  - unfold json. rewrite Hread.
    destruct (res_json res) as [body|]; [| stops].
    cbn. destruct body; cbn; try stops.
    unfold sleep. destruct (is_number _); [| stops].
    right. eexists _, _. intros ?. reflexivity.
  - left. eexists _, _. split; [| intros ?; reflexivity].
    intros msg [= ? _]. done.
Qed.

(** With a ceiling other than [0] the retries-exhausted error is out of
    reach, whatever the server answers. *)
Lemma retries_exhausted_unreachable token version (C : Z) fuel method
    endpoint content_type data headers (_ttl : option Z) params st msg :
  C ≠ 0 →
  (__send fuel (__init__ token version C) method endpoint content_type data
     headers _ttl params st).1 ≠ Raise (HTTPError ServerError msg).
Proof.
  intros HC. revert data headers _ttl params st.
  induction fuel as [|fuel IH]; intros data headers _ttl params st; [done |].
  rewrite send_step by (by apply int_or_nonzero). cbn zeta.
  destruct (transport _ _) as [res|]; [| done].
  match goal with
  | |- context [__handle_response ?c ?snd res ?m ?ep ?ct ?d ?t ?s] =>
      destruct (handle_never_server_error token version C res m ep ct d t s)
        as [(r & st' & Hr & ->)|(t' & st' & ->)]
  end.
  - apply Hr.
  - apply IH.
Qed.

(** C1 (what the code does): with a ceiling [C >= 1], [__send] never
    raises the retries-exhausted [ServerError], whatever the server
    answers; and against a server that answers every attempt with a 5xx
    (with a readable body) the run is still retrying however many
    activations are allowed, and it has issued one network call per
    activation, so more than [C] of them once [fuel > C]. The budget that
    reaches [0] is read back as "no budget given" by
    [_ttl or self.max_ttl] and starts again from [C]. *)
Theorem server_errors_never_exhaust_retries token version (C : Z) fuel
    method endpoint content_type data headers params st :
  1 ≤ C →
  (∀ msg,
     (__send fuel (__init__ token version C) method endpoint content_type
        data headers None params st).1 ≠ Raise (HTTPError ServerError msg))
  ∧ (always_server_error →
     (__send fuel (__init__ token version C) method endpoint content_type
        data headers None params st).1 = OutOfFuel ∧
     sent (__send fuel (__init__ token version C) method endpoint
             content_type data headers None params st).2 =
       (sent st + fuel)%nat).
Proof.
  intros HC. split.
  - intros msg. apply retries_exhausted_unreachable. lia.
  - intros Hall. apply server_errors_loop; [lia | done].
Qed.

(** C5: a 5xx met with remaining budget [_ttl] under ceiling [C] is
    followed by a sleep of exactly [1 + (C - _ttl) * 2] whole seconds and
    then by the retry (when its body cannot even be read, the handler
    raises and there is no retry to delay); and with [C = 5] the first
    five sleeps of a run against a server that only answers 5xx are 1, 3,
    5, 7, 9. *)
Theorem backoff_delay token version :
  (∀ (C : Z) send res method endpoint content_type data (_ttl : Z) st,
     is_server_error res →
     __handle_response (__init__ token version C) send res method endpoint
       content_type data _ttl st =
       if readable res then
         send method endpoint content_type data None (Some (_ttl - 1)) None
           (emit (ESleep (VInt (1 + (C - _ttl) * 2)))
              (saved endpoint method (res_headers res) st))
       else (Raise UnicodeDecodeError, st))
  ∧ (∀ fuel method endpoint content_type data headers params st,
       always_server_error →
       (5 ≤ fuel)%nat →
       ∃ later,
         sleeps_of
           (trace (__send fuel (__init__ token version 5) method endpoint
                     content_type data headers None params st).2) =
           sleeps_of (trace st)
             ++ [VInt 1; VInt 3; VInt 5; VInt 7; VInt 9] ++ later).
Proof.
  split.
  { intros C send res method endpoint content_type data _ttl st Hres.
    destruct (readable res) eqn:Hread; [| by apply handle_unreadable].
    rewrite handle_unmapped
      by eauto using server_error_not_ok, server_error_unmapped.
    reflexivity. }
  intros fuel method endpoint content_type data headers params st Hall Hfuel.
  do 5 (destruct fuel as [|fuel]; [lia |]). clear Hfuel.
  assert (H5 : (5 : Z) ≠ 0) by lia.
  do 5 server_error_step H5 Hall.
  match goal with
  | |- context [__send fuel ?c ?m ?ep ?ct ?d ?h ?t ?p ?s] =>
      destruct (send_trace_extends fuel c m ep ct d h t p s) as (tl & ->)
  end.
  exists (sleeps_of tl).
  repeat match goal with T : trace _ = _ |- _ => rewrite T; clear T end.
  rewrite !sleeps_of_app. cbn. by rewrite <- !app_assoc.
Qed.

(** ** Client errors *)

(** The five 4xx statuses of the table raise their own exception with the
    reason of the response, right after the bucket is saved: no sleep, no
    further call. *)
Lemma mapped_client_errors_raise token version (C : Z) send res method
    endpoint content_type data (_ttl : Z) st :
  readable res = true →
  status res ∈ [400; 401; 403; 404; 405] →
  ∃ kind,
    http_exceptions (__init__ token version C) !! status res = Some kind ∧
    kind ∈ [BadRequestError; UnauthorizedError; ForbiddenError;
            NotFoundError; MethodNotAllowedError] ∧
    __handle_response (__init__ token version C) send res method endpoint
      content_type data _ttl st =
      (Raise (HTTPError kind (reason res)),
       saved endpoint method (res_headers res) st).
Proof.
  intros Hread Hs.
  assert (Hok : ok res = false).
  { unfold ok. apply Z.ltb_ge.
    rewrite !elem_of_cons, elem_of_nil in Hs. lia. }
  rewrite !elem_of_cons, elem_of_nil in Hs.
  destruct Hs as [Hs|[Hs|[Hs|[Hs|[Hs|[]]]]]];
    (eexists; split; [rewrite http_exceptions_lookup, Hs; reflexivity |];
     split; [set_solver |];
     eapply handle_mapped;
       [done | done | rewrite http_exceptions_lookup, Hs; reflexivity
       | done]).
Qed.

(** C2 (what the code does): a 4xx status without an entry in the table
    (402, 406 to 428, 430 to 499) is not raised. It falls through to the
    branch commented "status code is guaranteed to be 5xx": the handler
    sleeps for the back-off delay and sends the request again with one
    unit less of budget. (When the body cannot be read the handler fails
    on reading it; a mapped error is raised in neither case.) *)
Theorem unmapped_client_error_is_retried token version (C : Z) send res
    method endpoint content_type data (_ttl : Z) st :
  400 ≤ status res < 500 →
  status res ∉ [400; 401; 403; 404; 405; 429] →
  __handle_response (__init__ token version C) send res method endpoint
    content_type data _ttl st =
    if readable res then
      send method endpoint content_type data None (Some (_ttl - 1)) None
        (emit (ESleep (VInt (1 + (C - _ttl) * 2)))
           (saved endpoint method (res_headers res) st))
    else (Raise UnicodeDecodeError, st).
Proof.
  intros Hrange Hnot.
  destruct (readable res) eqn:Hread; [| by apply handle_unreadable].
  apply handle_unmapped.
  - done.
  - unfold ok. apply Z.ltb_ge. lia.
  - apply http_exceptions_unmapped. set_unfold. lia.
Qed.

(** C3 (what the code does): a 304 response never raises
    [NotModifiedError]. Its status is below 400, so [res.ok] holds and the
    handler takes the success branch: it returns the parsed body (or
    fails in reading or parsing it), and the table entry for 304 is never
    read. *)
Theorem not_modified_takes_success_branch token version (C : Z) send res
    method endpoint content_type data (_ttl : Z) st :
  status res = 304 →
  __handle_response (__init__ token version C) send res method endpoint
    content_type data _ttl st =
    if readable res then
      (match res_json res with
       | Some v => Return v
       | None => Raise JSONDecodeError
       end,
       saved endpoint method (res_headers res) st)
    else (Raise UnicodeDecodeError, st).
Proof.
  intros Hs.
  destruct (readable res) eqn:Hread; [| by apply handle_unreadable].
  rewrite handle_ok by (done || unfold ok; by rewrite Hs).
  by rewrite Hs.
Qed.

(** ** Rate limiting *)

(** C8 (amended): on a 429 whose body is a JSON object, the sleep before
    the retry lasts the [retry_after] value of the object when that is a
    number, and 40 seconds when the object has no such key. Every other
    429 raises without sleeping or re-sending: on reading the body when
    it does not decode, on parsing it when it is not JSON, on [.get]
    when the JSON is not an object, and on [sleep] when [retry_after] is
    not a number. *)
Theorem ratelimit_sleep_duration token version (C : Z) send res method
    endpoint content_type data (_ttl : Z) st :
  status res = 429 →
  __handle_response (__init__ token version C) send res method endpoint
    content_type data _ttl st =
    match res_body res with
    | Undecodable => (Raise UnicodeDecodeError, st)
    | Text None =>
        (Raise JSONDecodeError, saved endpoint method (res_headers res) st)
    | Text (Some (VDict d)) =>
        let seconds :=
          match d !! "retry_after" with
          | Some seconds => seconds
          | None => VInt 40
          end in
        if is_number seconds then
          send method endpoint content_type data None None None
            (emit (ESleep seconds)
               (saved endpoint method (res_headers res) st))
        else (Raise TypeError, saved endpoint method (res_headers res) st)
    | Text (Some _) =>
        (Raise AttributeError, saved endpoint method (res_headers res) st)
    end.
Proof.
  intros Hs. unfold __handle_response, bind, text, json, readable, res_json.
  destruct (res_body res) as [|[body|]]; [reflexivity | |].
  - unfold rate_limiter_save, ok. rewrite http_exceptions_lookup, Hs. cbn.
    destruct body; try reflexivity.
    cbn. unfold sleep. by destruct (is_number _).
  - unfold rate_limiter_save, ok. rewrite http_exceptions_lookup, Hs.
    reflexivity.
Qed.

(** Any number of readable 5xx and 429 answers followed by a success ends in that
    success, whatever budget the run started with: a 429 re-sends without
    a budget and a budget that reaches [0] is read as the ceiling. *)
Lemma retries_until_success token version (C : Z) (n : nat) v fuel method
    endpoint content_type data headers (_ttl : option Z) params st :
  C ≠ 0 →
  (n < fuel)%nat →
  retryable_run (sent st) n →
  succeeds_at (sent st + n) v →
  (__send fuel (__init__ token version C) method endpoint content_type data
     headers _ttl params st).1 = Return v ∧
  sent (__send fuel (__init__ token version C) method endpoint content_type
          data headers _ttl params st).2 = (sent st + n + 1)%nat.
Proof.
  intros HC. revert fuel data headers _ttl params st.
  induction n as [|n IH]; intros fuel data headers _ttl params st Hfuel
    Hrun Hok;
    (destruct fuel as [|fuel]; [lia |]);
    rewrite send_step by (by apply int_or_nonzero); cbn zeta;
    set (req := request_of _ _ _ _ _ _ _).
  - destruct (Hok req) as (res & Hres & Hsucc).
    rewrite Nat.add_0_r in Hres. rewrite Hres.
    rewrite (handle_success _ _ _ _ _ _ _ _ _ v) by done.
    cbn. split; [done | lia].
  - destruct (Hrun 0%nat req ltac:(lia)) as (res & Hres & Hkind).
    rewrite Nat.add_0_r in Hres. rewrite Hres.
    assert (Hnext : ∀ st', sent st' = S (sent st) →
              retryable_run (sent st') n ∧ succeeds_at (sent st' + n) v).
    { intros st' Hs. split.
      - intros i r Hi. destruct (Hrun (S i) r ltac:(lia)) as (x & Hx & ?).
        exists x. split; [| done]. rewrite <- Hx. f_equal. lia.
      - intros r. destruct (Hok r) as (x & Hx & ?).
        exists x. split; [| done]. rewrite <- Hx. f_equal. lia. }
    destruct Hkind as [[Hse Hread]|(Hs & d & Hj & Hn)].
    + rewrite handle_unmapped
        by eauto using server_error_not_ok, server_error_unmapped.
      match goal with
      | |- context [__send fuel ?c ?m ?ep ?ct ?dt ?h ?t ?p ?s] =>
          destruct (Hnext s eq_refl) as [Hr' Hk'];
          destruct (IH fuel dt h t p s ltac:(lia) Hr' Hk') as [-> ->]
      end.
      split; [done | cbn; lia].
    + rewrite (handle_429 _ _ _ _ _ _ _ _ _ _ _ d) by done.
      match goal with
      | |- context [__send fuel ?c ?m ?ep ?ct ?dt ?h ?t ?p ?s] =>
          destruct (Hnext s eq_refl) as [Hr' Hk'];
          destruct (IH fuel dt h t p s ltac:(lia) Hr' Hk') as [-> ->]
      end.
      split; [done | cbn; lia].
Qed.

Lemma rate_limited_run_retryable (first n : nat) :
  rate_limited_run first n → retryable_run first n.
Proof.
  intros H i req Hi. destruct (H i req Hi) as (res & ? & ?). eauto.
Qed.

(** C4 (amended): a 429 whose body is a JSON object with a numeric
    [retry_after], or with none, never costs retry budget. The handler
    sleeps for that value (40 seconds without one) and sends again
    without passing the budget on, so the re-issued attempt starts from
    the full ceiling [C], whatever was left before; and with a ceiling
    other than [0], [n] such throttled answers followed by a success
    yield that success after [n + 1] network calls, for every [n] and
    every starting budget. *)
Theorem ratelimit_resend_restores_budget token version (C : Z) :
  (∀ res method endpoint content_type data (left_ttl : Z) st,
     is_rate_limited res →
     (∃ d, res_json res = Some (VDict d) ∧
        ∀ send,
          __handle_response (__init__ token version C) send res method
            endpoint content_type data left_ttl st =
            send method endpoint content_type data None None None
              (emit (ESleep (retry_after_of d))
                 (saved endpoint method (res_headers res) st)))
     ∧ (__handle_response (__init__ token version C)
          (report_ttl (__init__ token version C)) res method endpoint
          content_type data left_ttl st).1 = Return (VInt C))
  ∧ (∀ (n : nat) v fuel method endpoint content_type data headers
       (_ttl : option Z) params st,
       C ≠ 0 →
       (n < fuel)%nat →
       rate_limited_run (sent st) n →
       succeeds_at (sent st + n) v →
       (__send fuel (__init__ token version C) method endpoint content_type
          data headers _ttl params st).1 = Return v ∧
       sent (__send fuel (__init__ token version C) method endpoint
               content_type data headers _ttl params st).2 =
         (sent st + n + 1)%nat).
Proof.
  split.
  - intros res method endpoint content_type data left_ttl st
      (Hs & d & Hj & Hn).
    split.
    + exists d. split; [done |]. intros send. by apply handle_429.
    + rewrite (handle_429 _ _ _ _ _ _ _ _ _ _ _ d) by done. reflexivity.
  - intros n v fuel method endpoint content_type data headers _ttl params st
      HC Hfuel Hrun Hok.
    apply retries_until_success; auto using rate_limited_run_retryable.
Qed.

(** ** The issued requests *)

(** The [headers=] argument of the first call, key by key. *)
Lemma merged_headers_lookup content_type headers (k : string) :
  dict_display "Content-Type" (VStr content_type)
    (or_empty (remove_none headers)) !! k =
    match caller_header headers k with
    | Some v => Some v
    | None =>
        if decide (k = "Content-Type") then Some (VStr content_type)
        else None
    end.
Proof.
  unfold dict_display, caller_header. rewrite lookup_union.
  destruct headers as [h|]; cbn.
  - rewrite map_lookup_filter, lookup_singleton.
    destruct (h !! k) as [[]|]; cbn;
      repeat case_decide; simplify_option_eq; (reflexivity || congruence).
  - rewrite lookup_empty, lookup_singleton.
    repeat case_decide; simplify_option_eq; (reflexivity || congruence).
Qed.

(** C6 (amended): the first network call of a request carries the merge
    of the content-type header with the caller-supplied headers whose
    value is not [None], and on a shared key the caller's value wins: the
    pipeline's content type is sent under ["Content-Type"] only when the
    caller supplies no value for that key. *)
Theorem request_headers_merge fuel self method endpoint content_type data
    headers (_ttl : option Z) params st (k : string) :
  max_ttl self ≠ 0 →
  ∃ req tl,
    trace (__send (S fuel) self method endpoint content_type data headers
             _ttl params st).2 =
      trace st ++ EWait endpoint method :: ECall req :: tl ∧
    req_headers req !! k =
      match caller_header headers k with
      | Some v => Some v
      | None =>
          if decide (k = "Content-Type") then Some (VStr content_type)
          else None
      end.
Proof.
  intros HC. rewrite send_step by (by apply int_or_nonzero). cbn zeta.
  set (req := request_of self method endpoint content_type data headers
                params).
  exists req.
  assert (Hk : req_headers req !! k =
               match caller_header headers k with
               | Some v => Some v
               | None =>
                   if decide (k = "Content-Type")
                   then Some (VStr content_type) else None
               end) by apply merged_headers_lookup.
  destruct (transport (sent st) req) as [res|]; cycle 1.
  { exists []. cbn. split; [by rewrite <- !app_assoc | done]. }
  destruct (readable res) eqn:Hread; cycle 1.
  { rewrite handle_unreadable by done.
    exists []. cbn. split; [by rewrite <- !app_assoc | done]. }
  destruct (handle_cases self res method endpoint content_type
              (serialize data) (int_or _ttl (max_ttl self))
              (called req (waited endpoint method st)) Hread)
    as [(r & _ & Hr)|(t & v & Hr)]; rewrite Hr.
  - eexists [_]. cbn. split; [by rewrite <- !app_assoc | done].
  - match goal with
    | |- context [__send fuel ?c ?m ?ep ?ct ?d ?h ?t ?p ?s] =>
        destruct (send_trace_extends fuel c m ep ct d h t p s) as (tl & ->)
    end.
    eexists ([_; _] ++ tl). cbn. split; [by rewrite <- !app_assoc | done].
Qed.

(** C9: of the network calls of one logical request, every one after the
    first carries the method, the URL of the endpoint and the serialized
    data of the first, the content type as its only header and no query
    parameters; the caller's headers and params go out with the first
    call only. *)
Theorem retries_drop_headers_and_params fuel self method endpoint
    content_type data headers (_ttl : option Z) params st :
  ∃ tl,
    trace (__send fuel self method endpoint content_type data headers _ttl
             params st).2 = trace st ++ tl ∧
    ∀ first rest, calls_of tl = first :: rest →
      first =
        {| req_method := method;
           req_url := url self +:+ "/" +:+ endpoint;
           req_data := serialize data;
           req_headers :=
             dict_display "Content-Type" (VStr content_type)
               (or_empty (remove_none headers));
           req_params := remove_none params |} ∧
      Forall (λ req,
                req =
                  {| req_method := method;
                     req_url := url self +:+ "/" +:+ endpoint;
                     req_data := serialize data;
                     req_headers := {[ "Content-Type" := VStr content_type ]};
                     req_params := None |}) rest.
Proof.
  destruct fuel as [|fuel].
  { exists []. cbn. split; [by rewrite app_nil_r | done]. }
  destruct (decide (int_or _ttl (max_ttl self) = 0)) as [Hz|Hz].
  { rewrite send_exhausted by done. exists [].
    split; [by rewrite app_nil_r | done]. }
  rewrite send_step by done. cbn zeta.
  fold (request_of self method endpoint content_type data headers params).
  set (req := request_of self method endpoint content_type data headers
                params).
  destruct (transport (sent st) req) as [res|]; cycle 1.
  { exists [EWait endpoint method; ECall req]. cbn.
    split; [by rewrite <- !app_assoc |].
    intros first rest [= <- <-]. by split. }
  destruct (readable res) eqn:Hread; cycle 1.
  { rewrite handle_unreadable by done.
    exists [EWait endpoint method; ECall req]. cbn.
    split; [by rewrite <- !app_assoc |].
    intros first rest [= <- <-]. by split. }
  - destruct (handle_cases self res method endpoint content_type
                (serialize data) (int_or _ttl (max_ttl self))
                (called req (waited endpoint method st)) Hread)
      as [(r & _ & Hr)|(t & v & Hr)]; rewrite Hr.
    + eexists [EWait _ _; ECall req; ERecord _ _ _]. cbn.
      split; [by rewrite <- !app_assoc |].
      intros first rest [= <- <-]. by split.
    + destruct (resend_calls fuel self method endpoint content_type data t
                  (emit (ESleep v)
                     (saved endpoint method (res_headers res)
                        (called req (waited endpoint method st)))))
        as (tl & Htl & Hall).
      exists ([EWait endpoint method; ECall req;
               ERecord endpoint method (res_headers res); ESleep v] ++ tl).
      split; [rewrite Htl; cbn; by rewrite <- !app_assoc |].
      rewrite calls_of_app. cbn. intros first rest [= <- <-].
      split; [done |]. by rewrite <- request_of_retry.
Qed.

(** ** The rate limiter *)

(** C7 (amended): for every response whose body can be read as text,
    whatever its status, the handler applies [save_response_bucket] to the
    endpoint, the method and the headers of that response before it
    decides anything: it then either stops with its result in the world
    where exactly that save has happened, or sleeps and re-sends from
    that world. For a response whose body cannot be read, reading it for
    the debug log raises first and the rate limiter is left as it was. *)
Theorem bucket_saved_before_decision fuel self send res method endpoint
    content_type data (_ttl : Z) st :
  let recorded :=
    {| rl := save_response_bucket endpoint method (res_headers res) (rl st);
       sent := sent st;
       trace := trace st ++ [ERecord endpoint method (res_headers res)] |} in
  (readable res = true →
   ((∃ r,
       __handle_response self send res method endpoint content_type data
         _ttl st = (r, recorded))
    ∨ (∃ t v,
       __handle_response self send res method endpoint content_type data
         _ttl st =
         send method endpoint content_type data None t None
           {| rl := rl recorded; sent := sent recorded;
              trace := trace recorded ++ [ESleep v] |}))
   ∧ ∃ tl,
       trace (__handle_response self (__send fuel self) res method endpoint
                content_type data _ttl st).2 =
         trace st ++ ERecord endpoint method (res_headers res) :: tl)
  ∧ (readable res = false →
     __handle_response self send res method endpoint content_type data _ttl
       st = (Raise UnicodeDecodeError, st)).
Proof.
  cbn zeta. split; [| by apply handle_unreadable].
  intros Hread.
  destruct (handle_cases self res method endpoint content_type data _ttl st
              Hread)
    as [(r & _ & Hr)|(t & v & Hr)]; split; rewrite ?Hr.
  - left. by exists r.
  - eexists []. reflexivity.
  - right. by exists t, v.
  - match goal with
    | |- context [__send fuel ?c ?m ?ep ?ct ?d ?h ?t ?p ?s] =>
        destruct (send_trace_extends fuel c m ep ct d h t p s) as (tl & ->)
    end.
    exists (ESleep v :: tl). cbn. by rewrite <- !app_assoc.
Qed.

(** C10: a client built with a ceiling of [0] fails every request at
    once with the retries-exhausted [ServerError] that names the
    endpoint, through [__send] and through each of the seven verbs. The
    world is returned as it was: the rate limiter was neither consulted
    nor updated and no network call was issued. *)
Theorem zero_ceiling_fails_before_any_effect token version fuel method
    route content_type data headers params st :
  let self := __init__ token version 0 in
  let failure :=
    (Raise (HTTPError ServerError
              ("Maximum amount of retries for `" +:+ route +:+ "`.")),
     st) in
  __send (S fuel) self method route content_type data headers None params st
    = failure ∧
  HTTPClient.delete (S fuel) self route headers st = failure ∧
  HTTPClient.get (S fuel) self route params st = failure ∧
  HTTPClient.head (S fuel) self route st = failure ∧
  HTTPClient.options (S fuel) self route st = failure ∧
  HTTPClient.patch (S fuel) self route data content_type headers st
    = failure ∧
  HTTPClient.post (S fuel) self route data content_type headers st
    = failure ∧
  HTTPClient.put (S fuel) self route data content_type headers st = failure.
Proof.
  cbn zeta. unfold HTTPClient.delete, HTTPClient.get, HTTPClient.head,
    HTTPClient.options, HTTPClient.patch, HTTPClient.post, HTTPClient.put.
  repeat split; by apply send_exhausted.
Qed.

End Properties.

(** * Concrete runs *)

Section Runs.
Import HTTPClient.

(** C1 at ceiling 5: after twelve activations against a server that only
    answers 500 the client is still retrying and has called it twelve
    times. *)
Lemma server_errors_never_exhaust_retries_witness :
  let E := demo_env (always (respond 500 None)) in
  let out :=
    __send 12 (__init__ "token" None 5) GET "gateway" json_content_type None
      None None None (fresh (E := E) 0%nat) in
  (∀ msg, out.1 ≠ Raise (HTTPError ServerError msg)) ∧
  out.1 = OutOfFuel ∧ sent out.2 = 12%nat.
Proof.
  intros E out.
  destruct (server_errors_never_exhaust_retries (E := E)
              "token" None 5 12 GET "gateway" json_content_type None None
              None (fresh (E := E) 0%nat)) as [Hnever Hloop]; [lia |].
  split; [exact Hnever |].
  apply Hloop.
  intros n req. eexists. split; [reflexivity |].
  split; [unfold is_server_error; simpl; lia | reflexivity].
Defined.

(** C2 at status 409: the conflict is answered by a one second sleep and
    a re-send with budget 4. *)
Lemma unmapped_client_error_is_retried_witness :
  let E := demo_env (always (respond 409 None)) in
  let self := __init__ "token" None 5 in
  let res :=
    {| status := 409; reason := "Conflict"; res_headers := ∅;
       res_body := Text None |} in
  __handle_response self (__send 3 self) res PUT "guilds/1/bans/2"
    json_content_type None 5 (fresh (E := E) 0%nat) =
    __send 3 self PUT "guilds/1/bans/2" json_content_type None None
      (Some (5 - 1)) None
      (emit (ESleep (VInt (1 + (5 - 5) * 2)))
         (saved "guilds/1/bans/2" PUT ∅ (fresh (E := E) 0%nat))).
Proof.
  intros E self res.
  apply (unmapped_client_error_is_retried (E := E) "token" None 5
           (__send 3 self) res PUT "guilds/1/bans/2" json_content_type None
           5 (fresh (E := E) 0%nat)).
  - simpl. lia.
  - simpl. set_unfold. lia.
Defined.

(** C3 at a 304 with a body: the body is returned. *)
Lemma not_modified_takes_success_branch_witness :
  let E := demo_env (always (respond 304 None)) in
  let self := __init__ "token" None 5 in
  let res :=
    {| status := 304; reason := "Not Modified"; res_headers := ∅;
       res_body := Text (Some (VStr "cached")) |} in
  __handle_response self (__send 3 self) res GET "channels/1"
    json_content_type None 5 (fresh (E := E) 0%nat) =
    (Return (VStr "cached"), saved "channels/1" GET ∅ (fresh (E := E) 0%nat)).
Proof.
  intros E self res.
  apply (not_modified_takes_success_branch (E := E) "token" None 5
           (__send 3 self) res GET "channels/1" json_content_type None 5
           (fresh (E := E) 0%nat)).
  reflexivity.
Defined.

(** C4 (as stated) fails: with ceiling 5, a 429 met when 4 units were
    left is followed by an attempt that starts with 5, so that after the
    answers 500, 429, 500 the second back-off is the one second of a
    first failure, not three seconds; with ceiling 0 a server that
    succeeds at once (no throttling at all) still yields the
    retries-exhausted error; and one 429 whose body is the JSON [null],
    followed by a success, ends in an [AttributeError], not in the
    success. *)
Lemma ratelimit_resend_forgets_ttl :
  let body := {[ "retry_after" := VInt 2 ]} in
  let E :=
    demo_env (scripted [respond 500 None; Responded (throttled body);
                        respond 500 None]
                (respond 200 (Some (VStr "ok")))) in
  let E' :=
    demo_env (scripted [respond 429 (Some VNone)]
                (respond 200 (Some (VStr "ok")))) in
  let self := __init__ "token" None 5 in
  (__handle_response self (report_ttl self) (throttled body) GET "gateway"
     json_content_type None 4 (fresh (E := E) 0%nat)).1 = Return (VInt 5) ∧
  sleeps_of
    (trace (__send 4 self GET "gateway" json_content_type None None None
              None (fresh (E := E) 0%nat)).2) = [VInt 1; VInt 2; VInt 1] ∧
  (__send 4 (__init__ "token" None 0) GET "gateway" json_content_type None
     None None None (fresh (E := E) 0%nat)).1 =
    Raise (HTTPError ServerError "Maximum amount of retries for `gateway`.") ∧
  (__send 4 (__init__ (E := E') "token" None 5) GET "gateway"
     json_content_type None None None None (fresh (E := E') 0%nat)).1 =
    Raise AttributeError.
Proof. vm_compute. repeat split; reflexivity. Qed.

(** C4 (amended) on a run: two throttled answers, then a success, with a
    single unit of budget at the start. *)
Lemma ratelimit_resend_restores_budget_witness :
  let E :=
    demo_env (scripted [Responded (throttled {[ "retry_after" := VInt 2 ]});
                        Responded (throttled ∅)]
                (respond 200 (Some (VStr "ok")))) in
  let self := __init__ "token" None 5 in
  let run :=
    __send 3 self GET "gateway" json_content_type None None (Some 1) None
      (fresh (E := E) 0%nat) in
  (__handle_response self (report_ttl self) (throttled ∅) GET "gateway"
     json_content_type None 2 (fresh (E := E) 0%nat)).1 = Return (VInt 5) ∧
  run.1 = Return (VStr "ok") ∧
  sent run.2 = 3%nat.
Proof.
  intros E self run.
  destruct (ratelimit_resend_restores_budget (E := E) "token" None 5)
    as [Hresend Hrun].
  split.
  - apply (Hresend (throttled ∅) GET "gateway" json_content_type None 2
             (fresh (E := E) 0%nat)).
    split; [reflexivity |]. eexists. split; reflexivity.
  - apply (Hrun 2%nat (VStr "ok") 3%nat GET "gateway" json_content_type None
             None (Some 1) None (fresh (E := E) 0%nat)).
    + lia.
    + lia.
    + intros i req Hi. destruct i as [|[|i]]; [| | lia];
        (eexists; split; [reflexivity |]);
        (split; [reflexivity |]); eexists; split; reflexivity.
    + intros req. eexists. split; [reflexivity |]. by split_and!.
Defined.

(** C5 on a run: [C = 5] and three units left give a delay of five
    seconds, and seven activations against a failing server start with
    the sleeps 1, 3, 5, 7, 9. *)
Lemma backoff_delay_witness :
  let E := demo_env (always (respond 503 None)) in
  let self := __init__ "token" None 5 in
  let res :=
    {| status := 503; reason := "Service Unavailable"; res_headers := ∅;
       res_body := Text None |} in
  __handle_response self (__send 2 self) res GET "gateway"
    json_content_type None 3 (fresh (E := E) 0%nat) =
    __send 2 self GET "gateway" json_content_type None None (Some (3 - 1))
      None
      (emit (ESleep (VInt (1 + (5 - 3) * 2)))
         (saved "gateway" GET ∅ (fresh (E := E) 0%nat))) ∧
  ∃ later,
    sleeps_of
      (trace (__send 7 self GET "gateway" json_content_type None None None
                None (fresh (E := E) 0%nat)).2) =
      sleeps_of (trace (fresh (E := E) 0%nat))
        ++ [VInt 1; VInt 3; VInt 5; VInt 7; VInt 9] ++ later.
Proof.
  intros E self res.
  destruct (backoff_delay (E := E) "token" None) as [Hdelay Hrun].
  split.
  - apply (Hdelay 5 (__send 2 self) res GET "gateway" json_content_type None
             3 (fresh (E := E) 0%nat)).
    unfold is_server_error. simpl. lia.
  - apply (Hrun 7%nat GET "gateway" json_content_type None None None
             (fresh (E := E) 0%nat)).
    + intros n req. eexists. split; [reflexivity |].
      split; [unfold is_server_error; simpl; lia | reflexivity].
    + lia.
Defined.

(** C6 (as stated) fails: a caller of [post] who passes its own
    ["Content-Type"] header has that value sent, not the content type of
    the pipeline. *)
Lemma caller_content_type_overrides :
  let E := demo_env (always (respond 200 (Some (VStr "ok")))) in
  let out :=
    post 1 (__init__ "token" None 5) "channels/1/messages"
      (Some (VStr "hello")) "application/json"
      (Some {[ "Content-Type" := VStr "text/plain" ]}) (fresh (E := E) 0%nat) in
  (λ req, req_headers req !! "Content-Type") <$> calls_of (trace out.2) =
    [Some (VStr "text/plain")].
Proof. vm_compute. reflexivity. Qed.

(** C6 (amended) on a run: a caller who passes an audit reason and an
    absent header gets the pipeline's content type under
    ["Content-Type"]. *)
Lemma request_headers_merge_witness :
  let E := demo_env (always (respond 200 (Some (VStr "ok")))) in
  let self := __init__ "token" None 5 in
  let headers :=
    Some ({[ "X-Audit-Log-Reason" := VStr "spam"; "X-Absent" := VNone ]}
            : gmap string value) in
  ∃ req tl,
    trace (__send 1 self DELETE "channels/1" json_content_type None headers
             None None (fresh (E := E) 0%nat)).2 =
      trace (fresh (E := E) 0%nat) ++ EWait "channels/1" DELETE :: ECall req :: tl ∧
    req_headers req !! "Content-Type" = Some (VStr json_content_type).
Proof.
  intros E self headers.
  apply (request_headers_merge (E := E) 0 self DELETE "channels/1"
           json_content_type None headers None None (fresh (E := E) 0%nat)
           "Content-Type").
  simpl. lia.
Defined.

(** C8 (as stated) fails: a 429 whose body is the JSON [null], or is
    empty, omits the retry-after value, and the call raises instead of
    sleeping the 40 seconds of the fallback. *)
Lemma ratelimit_without_object_raises :
  let E := demo_env (always (respond 200 (Some (VStr "ok")))) in
  let self := __init__ "token" None 5 in
  let null :=
    {| status := 429; reason := "Too Many Requests"; res_headers := ∅;
       res_body := Text (Some VNone) |} in
  let empty :=
    {| status := 429; reason := "Too Many Requests"; res_headers := ∅;
       res_body := Text None |} in
  let on_null :=
    __handle_response self (__send 3 self) null GET "gateway"
      json_content_type None 5 (fresh (E := E) 0%nat) in
  let on_empty :=
    __handle_response self (__send 3 self) empty GET "gateway"
      json_content_type None 5 (fresh (E := E) 0%nat) in
  (on_null.1 = Raise AttributeError ∧ sleeps_of (trace on_null.2) = []) ∧
  (on_empty.1 = Raise JSONDecodeError ∧ sleeps_of (trace on_empty.2) = []).
Proof. vm_compute. repeat split; reflexivity. Qed.

(** C8 (amended) on two bodies: half a second when the object says so,
    forty seconds when it has no such key. *)
Lemma ratelimit_sleep_duration_witness :
  let E := demo_env (always (respond 200 None)) in
  let self := __init__ "token" None 5 in
  let half := VFloat (Qmake 1 2) in
  __handle_response self (__send 1 self)
    (throttled {[ "retry_after" := half ]}) GET "gateway" json_content_type
    None 5 (fresh (E := E) 0%nat) =
    __send 1 self GET "gateway" json_content_type None None None None
      (emit (ESleep half) (saved "gateway" GET ∅ (fresh (E := E) 0%nat))) ∧
  __handle_response self (__send 1 self) (throttled ∅) GET "gateway"
    json_content_type None 5 (fresh (E := E) 0%nat) =
    __send 1 self GET "gateway" json_content_type None None None None
      (emit (ESleep (VInt 40)) (saved "gateway" GET ∅ (fresh (E := E) 0%nat))).
Proof.
  intros E self half. split.
  - rewrite (ratelimit_sleep_duration (E := E) "token" None 5
               (__send 1 self) (throttled {[ "retry_after" := half ]}) GET
               "gateway" json_content_type None 5 (fresh (E := E) 0%nat))
      by reflexivity.
    vm_compute. reflexivity.
  - rewrite (ratelimit_sleep_duration (E := E) "token" None 5
               (__send 1 self) (throttled ∅) GET "gateway" json_content_type
               None 5 (fresh (E := E) 0%nat)) by reflexivity.
    vm_compute. reflexivity.
Defined.

(** C7 (as stated) fails: a response whose body cannot be read as text
    is never recorded. The request ends with the decoding error, the
    rate limiter has saved no bucket and the trace holds no save. *)
Lemma unreadable_response_is_not_recorded :
  let garbled :=
    {| status := 200; reason := "OK";
       res_headers := {[ "X-RateLimit-Remaining" := "0" ]};
       res_body := Undecodable |} in
  let E := demo_env (always (Responded garbled)) in
  let out :=
    get 3 (__init__ "token" None 5) "gateway" None (fresh (E := E) 0%nat) in
  out.1 = Raise UnicodeDecodeError ∧
  rl out.2 = 0%nat ∧
  omap (λ e, match e with ERecord ep _ _ => Some ep | _ => None end)
    (trace out.2) = [] ∧
  length (calls_of (trace out.2)) = 1%nat.
Proof. vm_compute. repeat split; reflexivity. Qed.

(** C7 (amended) on a readable 404: whatever the handler does next, it
    does it in the world where the rate limiter has saved one bucket,
    with the headers of the response. *)
Lemma bucket_saved_before_decision_witness :
  let E := demo_env (always (respond 404 None)) in
  let self := __init__ "token" None 5 in
  let res :=
    {| status := 404; reason := "Not Found";
       res_headers := {[ "X-RateLimit-Remaining" := "0" ]};
       res_body := Text None |} in
  let recorded :=
    {| rl := 1%nat; sent := 0%nat;
       trace := [ERecord "channels/1" GET (res_headers res)] |} in
  ((∃ r,
      __handle_response self (__send 3 self) res GET "channels/1"
        json_content_type None 5 (fresh (E := E) 0%nat) = (r, recorded))
   ∨ (∃ t v,
      __handle_response self (__send 3 self) res GET "channels/1"
        json_content_type None 5 (fresh (E := E) 0%nat) =
        __send 3 self GET "channels/1" json_content_type None None t None
          {| rl := rl recorded; sent := sent recorded;
             trace := trace recorded ++ [ESleep v] |}))
  ∧ ∃ tl,
      trace (__handle_response self (__send 3 self) res GET "channels/1"
               json_content_type None 5 (fresh (E := E) 0%nat)).2 =
        trace (fresh (E := E) 0%nat)
          ++ ERecord "channels/1" GET (res_headers res) :: tl.
Proof.
  intros E self res recorded.
  destruct (bucket_saved_before_decision (E := E) 3 self (__send 3 self) res
              GET "channels/1" json_content_type None 5
              (fresh (E := E) 0%nat)) as [Hsaved _].
  exact (Hsaved eq_refl).
Defined.

(** C9 on a run: a [patch] with caller headers and a dict payload that
    meets a 500 and a 429 before it succeeds. The first call carries the
    caller's header; the two re-sent calls carry the content type only,
    with the payload as it was serialized for the first call. *)
Example resent_calls_on_a_run :
  let E :=
    demo_env (scripted [respond 500 None; Responded (throttled ∅)]
                (respond 200 (Some (VStr "ok")))) in
  let self := __init__ "token" None 5 in
  let resent :=
    {| req_method := PATCH;
       req_url := "https://discord.com/api/v9/channels/1";
       req_data := Some (VStr "{}");
       req_headers := {[ "Content-Type" := VStr "application/json" ]};
       req_params := None |} in
  let out :=
    patch 3 self "channels/1" (Some (VDict {[ "name" := VStr "general" ]}))
      json_content_type (Some {[ "X-Audit-Log-Reason" := VStr "rename" ]})
      (fresh (E := E) 0%nat) in
  out.1 = Return (VStr "ok") ∧
  calls_of (trace out.2) =
    [ {| req_method := PATCH;
         req_url := "https://discord.com/api/v9/channels/1";
         req_data := Some (VStr "{}");
         req_headers :=
           {[ "Content-Type" := VStr "application/json";
              "X-Audit-Log-Reason" := VStr "rename" ]};
         req_params := None |};
      resent; resent ].
Proof. vm_compute. split; reflexivity. Qed.

End Runs.

(** * Further properties of the pipeline *)

Section Pipeline.
Context {E : Env}.
Import HTTPClient.

Implicit Types (self : HTTPClient.t) (send : send_t) (res : response)
  (method : http_method) (endpoint content_type : string)
  (data : option value) (headers params : option (gmap string value))
  (st : state) (fuel : nat).

Lemma ok_outcome_readable res v : ok_outcome res = Return v → readable res = true.
Proof. unfold ok_outcome, readable. by destruct (res_body res). Qed.

Lemma ok_outcome_text res :
  readable res = true →
  ok_outcome res =
    if status res =? 204 then Return VNone
    else match res_json res with
         | Some v => Return v
         | None => Raise JSONDecodeError
         end.
Proof. unfold ok_outcome, readable, res_json. by destruct (res_body res). Qed.

Lemma ok_outcome_unreadable res :
  readable res = false → ok_outcome res = Raise UnicodeDecodeError.
Proof. unfold ok_outcome, readable. by destruct (res_body res). Qed.

(** X1: with a ceiling other than [0], a request whose first call is
    answered by an [ok] response (status below 400) ends there. The body
    is read first: when it cannot be decoded the request fails with
    [UnicodeDecodeError] after the wait and the call, and no bucket is
    saved. When it can, the bucket is saved once and the request returns
    nothing for a 204, the parsed JSON otherwise, and fails with the
    parsing error when the text is not JSON. In no case does anything
    sleep or get sent again. *)
Theorem ok_response_ends_the_request fuel self method endpoint content_type
    data headers (_ttl : option Z) params st res :
  max_ttl self ≠ 0 →
  transport (sent st)
    (request_of self method endpoint content_type data headers params) =
    Responded res →
  ok res = true →
  __send (S fuel) self method endpoint content_type data headers _ttl params
    st =
    (match res_body res with
     | Undecodable => Raise UnicodeDecodeError
     | Text parsed =>
         if status res =? 204 then Return VNone
         else match parsed with
              | Some v => Return v
              | None => Raise JSONDecodeError
              end
     end,
     let issued :=
       called
         (request_of self method endpoint content_type data headers params)
         (waited endpoint method st) in
     match res_body res with
     | Undecodable => issued
     | Text _ => saved endpoint method (res_headers res) issued
     end).
Proof.
  intros HC Hres Hok. rewrite send_step by (by apply int_or_nonzero).
  cbn zeta. rewrite Hres. fold (ok_outcome res).
  destruct (readable res) eqn:Hread.
  - rewrite handle_ok, <- ok_outcome_text by done.
    unfold readable in Hread. by destruct (res_body res).
  - rewrite handle_unreadable, ok_outcome_unreadable by done.
    unfold readable in Hread. by destruct (res_body res).
Qed.

(** X2: a first answer with status 400, 401, 403, 404 or 405 ends the
    request, whatever budget is left. When its body can be read, the
    bucket is saved once and the exception of that status (BadRequest,
    Unauthorized, Forbidden, NotFound, MethodNotAllowed) is raised with
    the reason of the response; when it cannot, the request fails with
    [UnicodeDecodeError] after the wait and the call and no bucket is
    saved. In no case does anything sleep or get sent again. *)
Theorem mapped_client_error_ends_the_request token version (C : Z) fuel
    method endpoint content_type data headers (_ttl : option Z) params st
    res :
  C ≠ 0 →
  transport (sent st)
    (request_of (__init__ token version C) method endpoint content_type data
       headers params) = Responded res →
  status res ∈ [400; 401; 403; 404; 405] →
  ∃ kind,
    (status res, kind) ∈
      [(400, BadRequestError); (401, UnauthorizedError);
       (403, ForbiddenError); (404, NotFoundError);
       (405, MethodNotAllowedError)] ∧
    __send (S fuel) (__init__ token version C) method endpoint content_type
      data headers _ttl params st =
      let issued :=
        called
          (request_of (__init__ token version C) method endpoint
             content_type data headers params)
          (waited endpoint method st) in
      match res_body res with
      | Undecodable => (Raise UnicodeDecodeError, issued)
      | Text _ =>
          (Raise (HTTPError kind (reason res)),
           saved endpoint method (res_headers res) issued)
      end.
Proof.
  intros HC Hres Hs. rewrite send_step by (by apply int_or_nonzero).
  cbn zeta. rewrite Hres.
  assert (Hok : ok res = false).
  { unfold ok. apply Z.ltb_ge. set_unfold. lia. }
  assert (Hkind : ∃ kind,
            (status res, kind) ∈
              [(400, BadRequestError); (401, UnauthorizedError);
               (403, ForbiddenError); (404, NotFoundError);
               (405, MethodNotAllowedError)] ∧
            http_exceptions (__init__ token version C) !! status res =
              Some kind ∧
            is_RateLimitError kind = false).
  { set_unfold in Hs.
    destruct Hs as [Hs|[Hs|[Hs|[Hs|[Hs|[]]]]]];
      rewrite http_exceptions_lookup, Hs;
      (eexists; split_and!; [| reflexivity | reflexivity]); set_solver. }
  destruct Hkind as (kind & Hin & Hlookup & Hnot). exists kind.
  split; [done |].
  destruct (readable res) eqn:Hread.
  - rewrite (handle_mapped _ _ _ _ _ _ _ _ _ kind) by done.
    unfold readable in Hread. by destruct (res_body res).
  - rewrite handle_unreadable by done.
    unfold readable in Hread. by destruct (res_body res).
Qed.

(** X3: a connection failure is not retried. With a ceiling other than
    [0], when the transport fails on the first call the exception leaves
    [__send] as it is: the rate limiter was awaited and the call was
    issued, but no bucket is saved, nothing sleeps and no budget is
    spent on a second attempt. *)
Theorem connection_failure_propagates fuel self method endpoint
    content_type data headers (_ttl : option Z) params st :
  max_ttl self ≠ 0 →
  transport (sent st)
    (request_of self method endpoint content_type data headers params) =
    ConnectionFailed →
  __send (S fuel) self method endpoint content_type data headers _ttl params
    st =
    (Raise TransportError,
     called
       (request_of self method endpoint content_type data headers params)
       (waited endpoint method st)).
Proof.
  intros HC Hres. rewrite send_step by (by apply int_or_nonzero).
  cbn zeta. by rewrite Hres.
Qed.

(** ** Back-off schedules *)

(** The sleeps of a run that only meets server errors, for any way
    [budget] of numbering the budget of the successive activations. *)
Lemma server_error_sleeps token version (C : Z) (budget : nat → Z) fuel
    (k : nat) method endpoint content_type data headers (_ttl : option Z)
    params st :
  C ≠ 0 →
  always_server_error →
  (∀ j, int_or (Some (budget j - 1)) C = budget (S j)) →
  int_or _ttl C = budget k →
  sleeps_of
    (trace (__send fuel (__init__ token version C) method endpoint
              content_type data headers _ttl params st).2) =
    sleeps_of (trace st)
      ++ ((λ j : nat, VInt (1 + (C - budget j) * 2)) <$> seq k fuel).
Proof.
  intros HC Hall Hnext. revert k data headers _ttl params st.
  induction fuel as [|fuel IH]; intros k data headers _ttl params st Hk.
  { cbn. by rewrite app_nil_r. }
  destruct (send_server_error_step token version C fuel method endpoint
              content_type data headers _ttl params st HC Hall)
    as (st' & req & hs & -> & T & _).
  rewrite (IH (S k)) by (rewrite Hk; apply Hnext).
  rewrite T, sleeps_of_app, Hk. cbn. by rewrite <- app_assoc.
Qed.

Lemma succ_mod_budget (C : Z) (j : nat) :
  1 ≤ C →
  int_or (Some (C - Z.of_nat j `mod` C - 1)) C =
    C - Z.of_nat (S j) `mod` C.
Proof.
  intros HC.
  pose proof (Z.mod_pos_bound (Z.of_nat j) C ltac:(lia)) as Hr.
  pose proof (Z.div_mod (Z.of_nat j) C ltac:(lia)) as Hj.
  destruct (decide (Z.of_nat j `mod` C = C - 1)) as [Hlast|Hmid].
  - replace (Z.of_nat (S j) `mod` C) with 0.
    + rewrite Hlast. replace (C - (C - 1) - 1) with 0 by lia. cbn. lia.
    + apply (Z.mod_unique _ _ (Z.of_nat j `div` C + 1)); lia.
  - replace (Z.of_nat (S j) `mod` C) with (Z.of_nat j `mod` C + 1).
    + cbn. destruct (C - Z.of_nat j `mod` C - 1 =? 0) eqn:Hz; lia.
    + apply (Z.mod_unique _ _ (Z.of_nat j `div` C)); lia.
Qed.

(** X5: under a ceiling [C >= 1], the sleeps of a run that meets only
    server errors are periodic: the [k]-th failure in a row (from 0) is
    followed by a sleep of [1 + 2 * (k mod C)] seconds, for as long as the
    run goes on. After [C] failures the delay is back at one second. *)
Theorem server_error_backoff_is_periodic token version (C : Z) fuel method
    endpoint content_type data headers params st :
  1 ≤ C →
  always_server_error →
  sleeps_of
    (trace (__send fuel (__init__ token version C) method endpoint
              content_type data headers None params st).2) =
    sleeps_of (trace st) ++ periodic_backoff C fuel.
Proof.
  intros HC Hall.
  rewrite (server_error_sleeps token version C
             (λ j, C - Z.of_nat j `mod` C) fuel 0).
  - f_equal. unfold periodic_backoff. apply list_fmap_ext.
    intros _ j _. f_equal. lia.
  - lia.
  - done.
  - intros j. by apply succ_mod_budget.
  - cbn. rewrite Z.mod_0_l by lia. lia.
Qed.

(** X6: a negative ceiling is no ceiling. Against a server that only
    answers 5xx the budget moves away from [0], so the run never raises,
    and the [k]-th failure in a row is followed by a sleep of [1 + 2 * k]
    seconds: the delay grows without bound. *)
Theorem negative_ceiling_never_exhausts token version (C : Z) fuel method
    endpoint content_type data headers params st :
  C < 0 →
  always_server_error →
  (__send fuel (__init__ token version C) method endpoint content_type data
     headers None params st).1 = OutOfFuel ∧
  sleeps_of
    (trace (__send fuel (__init__ token version C) method endpoint
              content_type data headers None params st).2) =
    sleeps_of (trace st) ++ linear_backoff fuel.
Proof.
  intros HC Hall. split.
  { apply server_errors_loop; [lia | done]. }
  rewrite (server_error_sleeps token version C (λ j, C - Z.of_nat j) fuel 0).
  - f_equal. unfold linear_backoff. apply list_fmap_ext.
    intros _ j _. f_equal. lia.
  - lia.
  - done.
  - intros j. cbn. destruct (C - Z.of_nat j - 1 =? 0) eqn:Hz; lia.
  - cbn. lia.
Qed.

(** X8: the ceiling does not bound a run that ends well. With a ceiling
    other than [0], any [n] answers that are each a 5xx or a well-formed
    429, followed by a success, give that success after [n + 1] network
    calls, for every [n] (also beyond the ceiling) and every starting
    budget. *)
Theorem retryable_answers_then_success token version (C : Z) (n : nat) v
    fuel method endpoint content_type data headers (_ttl : option Z) params
    st :
  C ≠ 0 →
  (n < fuel)%nat →
  retryable_run (sent st) n →
  succeeds_at (sent st + n) v →
  (__send fuel (__init__ token version C) method endpoint content_type data
     headers _ttl params st).1 = Return v ∧
  sent (__send fuel (__init__ token version C) method endpoint content_type
          data headers _ttl params st).2 = (sent st + n + 1)%nat.
Proof. apply retries_until_success. Qed.

(** ** The trace of a run *)

(** [handle_cases] with the fact that only a number is slept on. *)
Lemma handle_cases_number self res method endpoint content_type data
    (_ttl : Z) st :
  readable res = true →
  (∃ r, ∀ send,
      __handle_response self send res method endpoint content_type data
        _ttl st = (r, saved endpoint method (res_headers res) st))
  ∨ (∃ t v, is_number v = true ∧ ∀ send,
      __handle_response self send res method endpoint content_type data
        _ttl st =
        send method endpoint content_type data None t None
          (emit (ESleep v) (saved endpoint method (res_headers res) st))).
Proof.
  intros Hread. unfold __handle_response, bind, text, rate_limiter_save.
  rewrite Hread. cbn.
  destruct (ok res).
  { left. destruct (status res =? 204); [by eexists |].
    unfold json. rewrite Hread. destruct (res_json res); by eexists. }
  destruct (http_exceptions self !! status res) as [exception|].
  - destruct (is_RateLimitError exception); [| left; by eexists].
    unfold json. rewrite Hread.
    destruct (res_json res) as [body|]; [| left; by eexists].
    cbn. destruct body; cbn; try (left; by eexists).
    unfold sleep. destruct (is_number _) eqn:Hn; [| left; by eexists].
    right. do 2 eexists. split; revgoals; [intros ?; reflexivity | exact Hn].
  - right. do 2 eexists. split; revgoals; [intros ?; reflexivity | done].
Qed.

(** X7: every run of [__send] extends the trace by well-formed rounds.
    Each network call is preceded by one wait on the rate limiter for the
    endpoint and method of the request; a response whose body can be read
    is followed by one bucket save with its own headers, and a response
    whose body cannot be read ends the run with no save; a sleep only
    happens after a save, on a number, and is followed by the next wait.
    The counter of network calls grows by the number of calls in the
    trace, and the rate limiter ends in the state that these waits and
    saves, applied in order, lead to. *)
Theorem run_is_made_of_rounds fuel self method endpoint content_type data
    headers (_ttl : option Z) params st :
  ∃ tl,
    trace (__send fuel self method endpoint content_type data headers _ttl
             params st).2 = trace st ++ tl ∧
    rounds endpoint method (sent st) tl ∧
    sent (__send fuel self method endpoint content_type data headers _ttl
            params st).2 = (sent st + length (calls_of tl))%nat ∧
    rl (__send fuel self method endpoint content_type data headers _ttl
          params st).2 = replay tl (rl st).
Proof.
  revert data headers _ttl params st.
  induction fuel as [|fuel IH]; intros data headers _ttl params st.
  { exists []. cbn. rewrite app_nil_r.
    split_and!; [done | constructor | lia | done]. }
  destruct (decide (int_or _ttl (max_ttl self) = 0)) as [Hz|Hz].
  { rewrite send_exhausted by done. exists []. cbn. rewrite app_nil_r.
    split_and!; [done | constructor | lia | done]. }
  rewrite send_step by done. cbn zeta.
  set (req := request_of self method endpoint content_type data headers
                params).
  destruct (transport (sent st) req) as [res|] eqn:Hres; cycle 1.
  { exists [EWait endpoint method; ECall req]. cbn.
    split_and!; [by rewrite <- !app_assoc | by constructor | lia | done]. }
  destruct (readable res) eqn:Hread; cycle 1.
  { rewrite handle_unreadable by done.
    exists [EWait endpoint method; ECall req]. cbn.
    split_and!;
      [by rewrite <- !app_assoc | by eapply rounds_unread | lia | done]. }
  destruct (handle_cases_number self res method endpoint content_type
              (serialize data) (int_or _ttl (max_ttl self))
              (called req (waited endpoint method st)) Hread)
    as [(r & Hr)|(t & v & Hv & Hr)]; rewrite Hr.
  - exists [EWait endpoint method; ECall req;
            ERecord endpoint method (res_headers res)].
    cbn.
    split_and!;
      [by rewrite <- !app_assoc | by eapply rounds_last | lia | done].
  - destruct (IH (serialize data) None t None
                (emit (ESleep v)
                   (saved endpoint method (res_headers res)
                      (called req (waited endpoint method st)))))
      as (tl & Htl & Hrounds & Hsent & Hrl).
    exists ([EWait endpoint method; ECall req;
             ERecord endpoint method (res_headers res); ESleep v] ++ tl).
    split_and!.
    + rewrite Htl. cbn. by rewrite <- !app_assoc.
    + cbn. by eapply rounds_again.
    + rewrite Hsent, calls_of_app. cbn. lia.
    + rewrite Hrl. unfold replay. by rewrite foldl_app.
Qed.

End Pipeline.

(** * Properties of the channel methods *)

Section Channels.
Context {E : Env} {O : Objects}.
Import HTTPClient.

(** ** The channel type *)

(** Looking a value up among members with distinct values. *)
Lemma find_member_exact (members : list (ChannelType * Z)) (z : Z)
    (type : ChannelType) :
  NoDup members.*2 →
  fst <$> find (λ m, m.2 =? z) members = Some type ↔ (type, z) ∈ members.
Proof.
  induction members as [|[t' z'] members IH]; intros Hnd.
  { cbn. split; [done | by intros ?%elem_of_nil]. }
  apply NoDup_cons in Hnd as [Hfresh Hnd]. cbn [find snd].
  destruct (z' =? z) eqn:Hz.
  - apply Z.eqb_eq in Hz as ->. cbn. split.
    + intros [= ->]. left.
    + intros [[= -> ]|Hin]%elem_of_cons; [done |].
      exfalso. apply Hfresh. apply list_elem_of_fmap.
      by exists (type, z).
  - apply Z.eqb_neq in Hz. rewrite IH by done. rewrite elem_of_cons.
    split; [by right | intros [[= _ ?]|?]; [lia | done]].
Qed.

Lemma ChannelType_members_distinct : NoDup ChannelType_members.*2.
Proof.
  unfold ChannelType_members.
  destruct (9 <=? GatewayConfig_version); cbn;
    repeat (apply NoDup_cons; split; [set_unfold; lia |]);
    apply NoDup_nil_2.
Qed.

Lemma ChannelType_call_members (x : value) (type : ChannelType) :
  ChannelType_call x = Some type ↔
  ∃ z, int_value x = Some z ∧ (type, z) ∈ ChannelType_members.
Proof.
  unfold ChannelType_call. destruct (int_value x) as [z|].
  - rewrite find_member_exact by apply ChannelType_members_distinct.
    split; [by exists z | by intros (z' & [= <-] & ?)].
  - split; [done | by intros (z' & [=] & _)].
Qed.

(** The values that count as the integer [z] in an enum lookup. *)
Lemma int_value_spec (x : value) (z : Z) :
  int_value x = Some z ↔
  x = VInt z ∨ x = VBool true ∧ z = 1 ∨ x = VBool false ∧ z = 0
  ∨ ∃ q, x = VFloat q ∧ Qnum q = z * Z.pos (Qden q).
Proof.
  destruct x as [|[]|z'|q| | | |]; cbn.
  - split; [done | intros [?|[[? _]|[[? _]|(? & ? & _)]]]; done].
  - split; [intros [= <-]; tauto |].
    intros [?|[[_ ->]|[[? _]|(? & ? & _)]]]; done.
  - split; [intros [= <-]; tauto |].
    intros [?|[[? _]|[[_ ->]|(? & ? & _)]]]; done.
  - split; [intros [= ->]; tauto |].
    intros [[= ->]|[[? _]|[[? _]|(? & ? & _)]]]; done.
  - destruct (Qnum q `mod` Z.pos (Qden q) =? 0) eqn:Hmod.
    + apply Z.eqb_eq in Hmod. split.
      * intros [= <-]. do 3 right. exists q. split; [done |].
        apply Z.div_exact in Hmod; lia.
      * intros [?|[[? _]|[[? _]|(q' & [= <-] & Hq)]]]; try done.
        f_equal. rewrite Hq. by apply Z.div_mul.
    + apply Z.eqb_neq in Hmod. split; [done |].
      intros [?|[[? _]|[[? _]|(q' & [= <-] & Hq)]]]; try done.
      exfalso. apply Hmod. rewrite Hq. by apply Z.mod_mul.
  - split; [done | intros [?|[[? _]|[[? _]|(? & ? & _)]]]; done].
  - split; [done | intros [?|[[? _]|[[? _]|(? & ? & _)]]]; done].
  - split; [done | intros [?|[[? _]|[[? _]|(? & ? & _)]]]; done].
  - split; [done | intros [?|[[? _]|[[? _]|(? & ? & _)]]]; done].
Qed.

(** The members that exist, by value. *)
Lemma ChannelType_members_spec (type : ChannelType) (z : Z) :
  (type, z) ∈ ChannelType_members ↔
  (z, type) ∈
    [(0, GUILD_TEXT); (1, DM); (2, GUILD_VOICE); (3, GROUP_DM);
     (4, GUILD_CATEGORY); (5, GUILD_NEWS); (6, GUILD_STORE);
     (13, GUILD_STAGE_VOICE)]
  ∨ 9 ≤ GatewayConfig_version ∧
    (z, type) ∈
      [(10, GUILD_NEWS_THREAD); (11, GUILD_PUBLIC_THREAD);
       (12, GUILD_PRIVATE_THREAD)].
Proof.
  unfold ChannelType_members.
  destruct (9 <=? GatewayConfig_version) eqn:Hv;
    [apply Z.leb_le in Hv | apply Z.leb_gt in Hv];
    set_unfold; naive_solver lia.
Qed.

(** X9: the table of [ChannelType(x)]. The call yields a member exactly
    for the values 0 to 6 and 13 (text, DM, voice, group DM, category,
    news, store, stage voice) and, only when the gateway version is at
    least 9, for 10, 11 and 12 (news, public and private thread); [True],
    [False] and whole floats count as the integers they equal, and every
    other value is rejected. *)
Theorem ChannelType_call_exact (x : value) (type : ChannelType) :
  ChannelType_call x = Some type ↔
  ∃ z : Z,
    (x = VInt z ∨ x = VBool true ∧ z = 1 ∨ x = VBool false ∧ z = 0
     ∨ ∃ q, x = VFloat q ∧ Qnum q = z * Z.pos (Qden q)) ∧
    ((z, type) ∈
       [(0, GUILD_TEXT); (1, DM); (2, GUILD_VOICE); (3, GROUP_DM);
        (4, GUILD_CATEGORY); (5, GUILD_NEWS); (6, GUILD_STORE);
        (13, GUILD_STAGE_VOICE)]
     ∨ 9 ≤ GatewayConfig_version ∧
       (z, type) ∈
         [(10, GUILD_NEWS_THREAD); (11, GUILD_PUBLIC_THREAD);
          (12, GUILD_PRIVATE_THREAD)]).
Proof.
  rewrite ChannelType_call_members. split.
  - intros (z & Hz & Hin). exists z.
    by rewrite <- int_value_spec, <- ChannelType_members_spec.
  - intros (z & Hz & Hin). exists z.
    by rewrite int_value_spec, ChannelType_members_spec.
Qed.

(** ** [from_id] and [edit] *)

Lemma channel_from_data_built client (h : HTTPClient.t)
    (d : gmap string value) (x : value) (type : ChannelType) :
  d !! "type" = Some x →
  ChannelType_call x = Some type →
  built_from client h d type (channel_from_data client h (VDict d)).
Proof.
  intros Hx Htype. unfold channel_from_data. rewrite Hx, Htype.
  eexists. split_and!.
  - by destruct type.
  - by rewrite lookup_insert_eq.
  - by rewrite lookup_insert_ne, lookup_insert_ne, lookup_insert_eq.
  - by rewrite lookup_insert_ne, lookup_insert_eq.
  - intros k Hk. set_unfold in Hk.
    rewrite !lookup_insert_ne by naive_solver.
    rewrite lookup_fmap, lookup_delete_ne by naive_solver. done.
Qed.

Lemma truthy_dict_with_key (d : gmap string value) (k : string) (x : value) :
  d !! k = Some x → truthy (VDict d) = true.
Proof.
  intros Hk. cbn. destruct (map_to_list d) eqn:Hl; [| done].
  apply map_to_list_empty_iff in Hl. subst d. by rewrite lookup_empty in Hk.
Qed.

(** [from_id] when the first call is answered by a readable [ok]
    response. *)
Lemma from_id_answered fuel client (channel_id : Z) st res :
  max_ttl (http client) ≠ 0 →
  transport (sent st) (from_id_request client channel_id) = Responded res →
  ok res = true →
  readable res = true →
  Channel_from_id (S fuel) client channel_id st =
    (match ok_outcome res with
     | Return data =>
         channel_from_data client (http client)
           (if truthy data then data else VDict ∅)
     | Raise e => Raised (Exn e)
     | OutOfFuel => Unfinished
     end,
     answered (from_id_request client channel_id)
       ("channels/" +:+ pretty channel_id) res st).
Proof.
  intros HC Hres Hok Hread. unfold Channel_from_id, HTTPClient.get.
  rewrite send_step by (by apply int_or_nonzero). cbn zeta.
  fold (from_id_request client channel_id). rewrite Hres.
  rewrite handle_ok, <- ok_outcome_text by done.
  by destruct (ok_outcome res).
Qed.

(** [edit] when the first call is answered by a readable [ok]
    response. *)
Lemma edit_answered fuel (self : ChannelObject.t)
    (kwargs : gmap string value) st res :
  max_ttl (ChannelObject._http self) ≠ 0 →
  transport (sent st) (edit_request self kwargs) = Responded res →
  ok res = true →
  readable res = true →
  Channel_edit (S fuel) self kwargs st =
    (match ok_outcome res with
     | Return data =>
         channel_from_data (ChannelObject._client self)
           (ChannelObject._http self) data
     | Raise e => Raised (Exn e)
     | OutOfFuel => Unfinished
     end,
     answered (edit_request self kwargs)
       ("channels/" +:+ Snowflake_format (ChannelObject.id self)) res st).
Proof.
  intros HC Hres Hok Hread. unfold Channel_edit, HTTPClient.patch.
  rewrite send_step by (by apply int_or_nonzero). cbn zeta.
  fold (edit_request self kwargs). rewrite Hres.
  rewrite handle_ok, <- ok_outcome_text by done.
  by destruct (ok_outcome res).
Qed.

(** X10: when the GET of [from_id] is answered at once by a JSON object
    whose ["type"] is the value of a channel type, [from_id] returns
    [from_dict] of that object on the class of the type: text, voice,
    category and news channels get their own class and every other type
    (DM, group DM, store, threads, stage) the plain [Channel]. The type is
    handed over as the enum member, the client and its HTTP client are
    attached under ["_client"] and ["_http"] (replacing whatever the
    server sent under these keys), and all other keys are passed on
    unchanged. *)
Theorem from_id_builds_by_type fuel client (channel_id : Z) st res
    (d : gmap string value) (x : value) (type : ChannelType) :
  max_ttl (http client) ≠ 0 →
  transport (sent st) (from_id_request client channel_id) = Responded res →
  ok res = true →
  status res ≠ 204 →
  res_json res = Some (VDict d) →
  d !! "type" = Some x →
  ChannelType_call x = Some type →
  built_from client (http client) d type
    (Channel_from_id (S fuel) client channel_id st).1 ∧
  (Channel_from_id (S fuel) client channel_id st).2 =
    answered (from_id_request client channel_id)
      ("channels/" +:+ pretty channel_id) res st.
Proof.
  intros HC Hres Hok H204 Hjson Hx Htype.
  rewrite (from_id_answered _ _ _ _ res)
    by eauto using res_json_readable, ok_outcome_readable. rewrite ok_outcome_text by eauto using res_json_readable.
  apply Z.eqb_neq in H204. rewrite H204, Hjson.
  rewrite (truthy_dict_with_key d "type" x) by done.
  split; [| done]. by eapply channel_from_data_built.
Qed.

(** X11: the fallback [or {}] of [from_id] cannot succeed. When the GET
    is answered by a 204, by a falsy body ([null], an empty object, list
    or string, zero, [false]) or by an object without a ["type"] key,
    [from_id] raises [KeyError] for ["type"], after the request went
    through. *)
Theorem from_id_without_type_raises_KeyError fuel client (channel_id : Z) st
    res (data : value) :
  max_ttl (http client) ≠ 0 →
  transport (sent st) (from_id_request client channel_id) = Responded res →
  ok res = true →
  ok_outcome res = Return data →
  truthy data = false ∨ (∃ d, data = VDict d ∧ d !! "type" = None) →
  Channel_from_id (S fuel) client channel_id st =
    (Raised (KeyError "type"),
     answered (from_id_request client channel_id)
       ("channels/" +:+ pretty channel_id) res st).
Proof.
  intros HC Hres Hok Hdata Hbody.
  rewrite (from_id_answered _ _ _ _ res)
    by eauto using res_json_readable, ok_outcome_readable. rewrite Hdata. f_equal.
  destruct Hbody as [Hfalsy|(d & -> & Hnone)].
  - rewrite Hfalsy. reflexivity.
  - destruct (truthy (VDict d)); cbn; [by rewrite Hnone | reflexivity].
Qed.

(** X12: thread channels need gateway version 9. When the GET of
    [from_id] is answered by an object whose ["type"] is 10, 11 or 12,
    [from_id] builds a plain [Channel] if the configured gateway version
    is at least 9, and raises [ValueError] for that type if it is
    older. *)
Theorem from_id_thread_needs_version_9 fuel client (channel_id : Z) st res
    (d : gmap string value) (z : Z) :
  max_ttl (http client) ≠ 0 →
  transport (sent st) (from_id_request client channel_id) = Responded res →
  ok res = true →
  status res ≠ 204 →
  res_json res = Some (VDict d) →
  d !! "type" = Some (VInt z) →
  10 ≤ z ≤ 12 →
  if 9 <=? GatewayConfig_version
  then ∃ data,
         (Channel_from_id (S fuel) client channel_id st).1 =
           FromDict Channel data
  else (Channel_from_id (S fuel) client channel_id st).1 =
         Raised (ValueError (VInt z)).
Proof.
  intros HC Hres Hok H204 Hjson Hx Hz.
  rewrite (from_id_answered _ _ _ _ res)
    by eauto using res_json_readable, ok_outcome_readable. rewrite ok_outcome_text by eauto using res_json_readable.
  apply Z.eqb_neq in H204. rewrite H204, Hjson.
  rewrite (truthy_dict_with_key d "type" (VInt z)) by done.
  cbn [fst]. unfold channel_from_data. rewrite Hx.
  unfold ChannelType_call, ChannelType_members. cbn [int_value].
  assert (Hcases : z = 10 ∨ z = 11 ∨ z = 12) by lia.
  destruct (9 <=? GatewayConfig_version);
    destruct Hcases as [-> | [-> | ->]]; cbn; eauto.
Qed.


(** X14: [edit] builds its result from the response, not from [self].
    When the PATCH is answered at once by a JSON object whose ["type"] is
    the value of a channel type, the result is [from_dict] of that object
    on the class of that type, with the client and HTTP client of [self]
    attached; and the request carried the keyword arguments serialized by
    [dumps] as its data. *)
Theorem edit_builds_by_type fuel (self : ChannelObject.t)
    (kwargs : gmap string value) st res (d : gmap string value) (x : value)
    (type : ChannelType) :
  max_ttl (ChannelObject._http self) ≠ 0 →
  transport (sent st) (edit_request self kwargs) = Responded res →
  ok res = true →
  status res ≠ 204 →
  res_json res = Some (VDict d) →
  d !! "type" = Some x →
  ChannelType_call x = Some type →
  built_from (ChannelObject._client self) (ChannelObject._http self) d type
    (Channel_edit (S fuel) self kwargs st).1 ∧
  calls_of (trace (Channel_edit (S fuel) self kwargs st).2) =
    calls_of (trace st) ++ [edit_request self kwargs] ∧
  req_data (edit_request self kwargs) = Some (VStr (dumps (VDict kwargs))).
Proof.
  intros HC Hres Hok H204 Hjson Hx Htype.
  rewrite (edit_answered _ _ _ _ res)
    by eauto using res_json_readable, ok_outcome_readable. rewrite ok_outcome_text by eauto using res_json_readable.
  apply Z.eqb_neq in H204. rewrite H204, Hjson.
  split_and!.
  - by eapply channel_from_data_built.
  - cbn. rewrite !calls_of_app. cbn. by rewrite !app_nil_r.
  - reflexivity.
Qed.

End Channels.

(** * More concrete runs *)

Section MoreRuns.
Import HTTPClient.

(** X1 on a 204 whose (empty) text is not JSON: nothing is returned and
    the bucket is saved. *)
Lemma ok_response_ends_the_request_witness :
  let E := demo_env (always (respond 204 None)) in
  let self := __init__ "token" None 5 in
  let res :=
    {| status := 204; reason := "reason"; res_headers := ∅;
       res_body := Text None |} in
  __send 1 self DELETE "channels/1" json_content_type None None None None
    (fresh (E := E) 0%nat) =
    (Return VNone,
     saved "channels/1" DELETE (res_headers res)
       (called
          (request_of self DELETE "channels/1" json_content_type None None
             None)
          (waited "channels/1" DELETE (fresh (E := E) 0%nat)))).
Proof.
  intros E self res.
  apply (ok_response_ends_the_request (E := E) 0 self DELETE "channels/1"
           json_content_type None None None None (fresh (E := E) 0%nat) res).
  - simpl. lia.
  - reflexivity.
  - reflexivity.
Defined.

(** X2 on a 404 met with a single unit of budget. *)
Lemma mapped_client_error_ends_the_request_witness :
  let E := demo_env (always (respond 404 None)) in
  let self := __init__ "token" None 5 in
  let res :=
    {| status := 404; reason := "reason"; res_headers := ∅;
       res_body := Text None |} in
  ∃ kind,
    (status res, kind) ∈
      [(400, BadRequestError); (401, UnauthorizedError);
       (403, ForbiddenError); (404, NotFoundError);
       (405, MethodNotAllowedError)] ∧
    __send 3 self GET "channels/1" json_content_type None None (Some 1) None
      (fresh (E := E) 0%nat) =
      (Raise (HTTPError kind (reason res)),
       saved "channels/1" GET (res_headers res)
         (called
            (request_of self GET "channels/1" json_content_type None None
               None)
            (waited "channels/1" GET (fresh (E := E) 0%nat)))).
Proof.
  intros E self res.
  apply (mapped_client_error_ends_the_request (E := E) "token" None 5 2 GET
           "channels/1" json_content_type None None (Some 1) None
           (fresh (E := E) 0%nat) res).
  - lia.
  - reflexivity.
  - simpl. set_unfold. lia.
Defined.

(** X3 on a server that cannot be reached. *)
Lemma connection_failure_propagates_witness :
  let E := demo_env (always ConnectionFailed) in
  let self := __init__ "token" None 5 in
  __send 4 self GET "gateway" json_content_type None None None None
    (fresh (E := E) 0%nat) =
    (Raise TransportError,
     called
       (request_of self GET "gateway" json_content_type None None None)
       (waited "gateway" GET (fresh (E := E) 0%nat))).
Proof.
  intros E self.
  apply (connection_failure_propagates (E := E) 3 self GET "gateway"
           json_content_type None None None None (fresh (E := E) 0%nat)).
  - simpl. lia.
  - reflexivity.
Defined.

(** X5 with ceiling 3: seven failures sleep 1, 3, 5, 1, 3, 5, 1. *)
Lemma server_error_backoff_is_periodic_witness :
  let E := demo_env (always (respond 502 None)) in
  sleeps_of
    (trace (__send 7 (__init__ "token" None 3) GET "gateway"
              json_content_type None None None None
              (fresh (E := E) 0%nat)).2) =
    sleeps_of (trace (fresh (E := E) 0%nat)) ++ periodic_backoff 3 7 ∧
  periodic_backoff 3 7 =
    [VInt 1; VInt 3; VInt 5; VInt 1; VInt 3; VInt 5; VInt 1].
Proof.
  intros E. split; [| reflexivity].
  apply (server_error_backoff_is_periodic (E := E) "token" None 3 7 GET
           "gateway" json_content_type None None None
           (fresh (E := E) 0%nat)).
  - lia.
  - intros n req. eexists. split; [reflexivity |].
    split; [unfold is_server_error; simpl; lia | reflexivity].
Defined.

(** X6 with ceiling -1: four failures sleep 1, 3, 5, 7 and the run goes
    on. *)
Lemma negative_ceiling_never_exhausts_witness :
  let E := demo_env (always (respond 502 None)) in
  let out :=
    __send 4 (__init__ "token" None (-1)) GET "gateway" json_content_type
      None None None None (fresh (E := E) 0%nat) in
  (out.1 = OutOfFuel ∧
   sleeps_of (trace out.2) =
     sleeps_of (trace (fresh (E := E) 0%nat)) ++ linear_backoff 4) ∧
  linear_backoff 4 = [VInt 1; VInt 3; VInt 5; VInt 7].
Proof.
  intros E out. split; [| reflexivity].
  apply (negative_ceiling_never_exhausts (E := E) "token" None (-1) 4 GET
           "gateway" json_content_type None None None
           (fresh (E := E) 0%nat)).
  - lia.
  - intros n req. eexists. split; [reflexivity |].
    split; [unfold is_server_error; simpl; lia | reflexivity].
Defined.

(** X8 with ceiling 2: three retryable answers, more than the ceiling,
    and then the success. *)
Lemma retryable_answers_then_success_witness :
  let E :=
    demo_env (scripted [respond 500 None; Responded (throttled ∅);
                        respond 503 None]
                (respond 200 (Some (VStr "ok")))) in
  let out :=
    __send 4 (__init__ "token" None 2) GET "gateway" json_content_type None
      None None None (fresh (E := E) 0%nat) in
  out.1 = Return (VStr "ok") ∧ sent out.2 = 4%nat.
Proof.
  intros E out.
  apply (retryable_answers_then_success (E := E) "token" None 2 3
           (VStr "ok") 4 GET "gateway" json_content_type None None None None
           (fresh (E := E) 0%nat)).
  - lia.
  - lia.
  - intros i req Hi. destruct i as [|[|[|i]]]; [| | | lia];
      (eexists; split; [reflexivity |]).
    + left. split; [unfold is_server_error; simpl; lia | reflexivity].
    + right. split; [reflexivity |]. eexists. split; reflexivity.
    + left. split; [unfold is_server_error; simpl; lia | reflexivity].
  - intros req. eexists. split; [reflexivity |]. by split_and!.
Defined.

(** X10 on a voice channel whose JSON tries to pass an ["_http"] of its
    own. *)
Lemma from_id_builds_by_type_witness :
  let body : gmap string value :=
    {[ "type" := VInt 2; "name" := VStr "lobby"; "_http" := VStr "spoof" ]} in
  let E := demo_env (always (respond 200 (Some (VDict body)))) in
  let client := {| http := __init__ "token" None 5 |} in
  let res :=
    {| status := 200; reason := "reason"; res_headers := ∅;
       res_body := Text (Some (VDict body)) |} in
  built_from client (http client) body GUILD_VOICE
    (Channel_from_id 1 client 42 (fresh (E := E) 0%nat)).1 ∧
  (Channel_from_id 1 client 42 (fresh (E := E) 0%nat)).2 =
    answered (from_id_request client 42) ("channels/" +:+ pretty 42) res
      (fresh (E := E) 0%nat).
Proof.
  intros body E client res.
  apply (from_id_builds_by_type (E := E) 0 client 42 (fresh (E := E) 0%nat)
           res body (VInt 2) GUILD_VOICE).
  - simpl. lia.
  - reflexivity.
  - reflexivity.
  - simpl. lia.
  - reflexivity.
  - reflexivity.
  - reflexivity.
Defined.

(** X11 on a 204. *)
Lemma from_id_without_type_raises_KeyError_witness :
  let E := demo_env (always (respond 204 None)) in
  let client := {| http := __init__ "token" None 5 |} in
  let res :=
    {| status := 204; reason := "reason"; res_headers := ∅;
       res_body := Text None |} in
  Channel_from_id 1 client 42 (fresh (E := E) 0%nat) =
    (Raised (KeyError "type"),
     answered (from_id_request client 42) ("channels/" +:+ pretty 42) res
       (fresh (E := E) 0%nat)).
Proof.
  intros E client res.
  apply (from_id_without_type_raises_KeyError (E := E) 0 client 42
           (fresh (E := E) 0%nat) res VNone).
  - simpl. lia.
  - reflexivity.
  - reflexivity.
  - reflexivity.
  - left. reflexivity.
Defined.

(** X12 on a public thread seen through a version 8 gateway. *)
Lemma from_id_thread_needs_version_9_witness :
  let body : gmap string value := {[ "type" := VInt 11 ]} in
  let E := legacy_env (always (respond 200 (Some (VDict body)))) in
  let client := {| http := __init__ "token" None 5 |} in
  (Channel_from_id 1 client 42 (fresh (E := E) 0%nat)).1 =
    Raised (ValueError (VInt 11)).
Proof.
  intros body E client.
  apply (from_id_thread_needs_version_9 (E := E) 0 client 42
           (fresh (E := E) 0%nat)
           {| status := 200; reason := "reason"; res_headers := ∅;
              res_body := Text (Some (VDict body)) |} body 11).
  - simpl. lia.
  - reflexivity.
  - reflexivity.
  - simpl. lia.
  - reflexivity.
  - reflexivity.
  - lia.
Defined.


(** X14 on a text channel that the edit turned into a news channel. *)
Lemma edit_builds_by_type_witness :
  let body : gmap string value :=
    {[ "type" := VInt 5; "name" := VStr "announcements" ]} in
  let E := demo_env (always (respond 200 (Some (VDict body)))) in
  let h := __init__ "token" None 5 in
  let self := ChannelObject.Build_t demo_objects 42 {| http := h |} h in
  let kwargs : gmap string value := {[ "type" := VInt 5 ]} in
  built_from (ChannelObject._client self) (ChannelObject._http self) body
    GUILD_NEWS (Channel_edit 1 self kwargs (fresh (E := E) 0%nat)).1 ∧
  calls_of (trace (Channel_edit 1 self kwargs (fresh (E := E) 0%nat)).2) =
    calls_of (trace (fresh (E := E) 0%nat)) ++ [edit_request self kwargs] ∧
  req_data (edit_request self kwargs) = Some (VStr (dumps (VDict kwargs))).
Proof.
  intros body E h self kwargs.
  apply (edit_builds_by_type (E := E) (O := demo_objects) 0 self kwargs
           (fresh (E := E) 0%nat)
           {| status := 200; reason := "reason"; res_headers := ∅;
              res_body := Text (Some (VDict body)) |} body (VInt 5) GUILD_NEWS).
  - simpl. lia.
  - reflexivity.
  - reflexivity.
  - simpl. lia.
  - reflexivity.
  - reflexivity.
  - reflexivity.
Defined.

End MoreRuns.
